(** * Policy Peek: keyword scanning, risk scoring and the summary fallback chain

    A shallow embedding of the two scripts of the extension:

      - [Popup]: the popup script (manual analysis): [analyzeRiskFactors],
        [analyzePolicyText], the click handler of the Analyze button;
      - [Background]: the content function [detectPolicyContent] that the
        background script injects into every visited page;
      - [Worker]: the rest of the background script: the analysis of a tab,
        the badge and the notification, the storage and the messages;
      - [PopupPage]: the rest of the popup script: the fallback analysis,
        the status badge of [config.js]'s availability check, and the
        analysis of the current page.

    JavaScript strings are sequences of UTF-16 code units; they are modelled
    as [list N].  The string methods the scripts call are written out in
    module [JS]. *)

From Stdlib Require Import List Bool Arith NArith ZArith QArith Qround Lia.
From Stdlib Require Ascii String DecimalNat.
From stdpp Require gmap.
Import ListNotations String.StringSyntax.

Set Implicit Arguments.

(* ------------------------------------------------------------------ *)
(** ** JavaScript strings *)

Module JS.

Definition jsstring := list N.

(** A source literal (ASCII only) as a sequence of code units. *)
Definition lit (s : String.string) : jsstring :=
  map Ascii.N_of_ascii (String.list_ascii_of_string s).

Arguments lit s%_string_scope.

(** [a === b] on strings. *)
Fixpoint str_eqb (a b : jsstring) : bool :=
  match a, b with
  | [], [] => true
  | x :: a', y :: b' => (x =? y)%N && str_eqb a' b'
  | _, _ => false
  end.

(** A string is falsy exactly when it is empty. *)
Definition truthy (s : jsstring) : bool :=
  match s with [] => false | _ => true end.

(** [a || b] on strings. *)
Definition or_else (a b : jsstring) : jsstring :=
  if truthy a then a else b.

(** The class [\s] of regular expressions, which is also what [trim]
    removes: TAB, LF, VT, FF, CR, SP, NBSP, U+1680, U+2000..U+200A,
    U+2028, U+2029, U+202F, U+205F, U+3000, U+FEFF. *)
Definition isWhiteSpace (c : N) : bool :=
  (existsb (N.eqb c)
     [9; 10; 11; 12; 13; 32; 160; 5760; 8232; 8233; 8239; 8287; 12288; 65279]
   || ((8192 <=? c) && (c <=? 8202)))%N.

(** The class [\w]: [A-Za-z0-9_]. *)
Definition isWordChar (c : N) : bool :=
  (((65 <=? c) && (c <=? 90)) || ((97 <=? c) && (c <=? 122))
   || ((48 <=? c) && (c <=? 57)) || (c =? 95))%N.

(** Lower-casing of one code unit.  ASCII and Latin-1 capitals move by 32;
    the three other code units whose lower case reaches (or starts in) the
    ASCII or Latin-1 range are U+0130, U+212A and U+212B.  Every other code
    unit is left as it is: its lower-case form, when it has one, lies outside
    ASCII, so it can neither create nor destroy an occurrence of the (ASCII)
    keywords. *)
Definition lowerUnit (c : N) : list N :=
  (if (65 <=? c) && (c <=? 90) then [c + 32]
   else if (192 <=? c) && (c <=? 222) && negb (c =? 215) then [c + 32]
   else if c =? 304 then [105; 775]
   else if c =? 8490 then [107]
   else if c =? 8491 then [229]
   else [c])%N.

Definition toLowerCase (s : jsstring) : jsstring := flat_map lowerUnit s.

Fixpoint trimStart (s : jsstring) : jsstring :=
  match s with
  | c :: s' => if isWhiteSpace c then trimStart s' else s
  | [] => []
  end.

Definition trimEnd (s : jsstring) : jsstring := rev (trimStart (rev s)).

Definition trim (s : jsstring) : jsstring := trimEnd (trimStart s).

(** [s.startsWith(k)] *)
Fixpoint startsWith (s k : jsstring) : bool :=
  match k, s with
  | [], _ => true
  | a :: k', b :: s' => (a =? b)%N && startsWith s' k'
  | _ :: _, [] => false
  end.

(** [s.endsWith(k)]: compare the last [k.length] code units of [s]. *)
Definition endsWith (s k : jsstring) : bool :=
  if length k <=? length s
  then str_eqb (skipn (length s - length k) s) k
  else false.

(** [s.includes(k)]: [k] occurs at some position of [s]. *)
Fixpoint includes (s k : jsstring) : bool :=
  startsWith s k ||
  match s with
  | [] => false
  | _ :: s' => includes s' k
  end.

(** [s.replace(/\s+/g, r)]: every maximal run of white space becomes [r].
    [inrun] tells that the previous code unit was white space. *)
Fixpoint replaceWsFrom (inrun : bool) (r s : jsstring) : jsstring :=
  match s with
  | [] => []
  | c :: s' =>
      if isWhiteSpace c
      then (if inrun then replaceWsFrom true r s'
            else r ++ replaceWsFrom true r s')
      else c :: replaceWsFrom false r s'
  end.

Definition replaceWs (r s : jsstring) : jsstring := replaceWsFrom false r s.

(** [s.replace(/[^\w\s]/g, '')] *)
Definition stripPunctuation (s : jsstring) : jsstring :=
  filter (fun c => isWordChar c || isWhiteSpace c) s.

(** [s.split(/\s+/)]: the pieces between the maximal runs of white space;
    a run at either end leaves an empty piece there, and the empty string
    splits into one empty piece.  [cur] is the current piece, reversed. *)
Fixpoint splitWsFrom (cur : jsstring) (inrun : bool) (s : jsstring)
  : list jsstring :=
  match s with
  | [] => [rev cur]
  | c :: s' =>
      if isWhiteSpace c
      then (if inrun then splitWsFrom cur true s'
            else rev cur :: splitWsFrom [] true s')
      else splitWsFrom (c :: cur) false s'
  end.

Definition splitWs (s : jsstring) : list jsstring := splitWsFrom [] false s.

(** A non-negative integer inside a template literal: its decimal digits. *)
Fixpoint digits (d : Decimal.uint) : jsstring :=
  match d with
  | Decimal.Nil => []
  | Decimal.D0 d' => 48%N :: digits d'
  | Decimal.D1 d' => 49%N :: digits d'
  | Decimal.D2 d' => 50%N :: digits d'
  | Decimal.D3 d' => 51%N :: digits d'
  | Decimal.D4 d' => 52%N :: digits d'
  | Decimal.D5 d' => 53%N :: digits d'
  | Decimal.D6 d' => 54%N :: digits d'
  | Decimal.D7 d' => 55%N :: digits d'
  | Decimal.D8 d' => 56%N :: digits d'
  | Decimal.D9 d' => 57%N :: digits d'
  end.

Definition ofNat (n : nat) : jsstring := digits (Nat.to_uint n).

End JS.

Import JS.

(** Substring, prefix and suffix, as relations. *)
Definition Contains (s k : jsstring) : Prop :=
  exists pre post, s = pre ++ k ++ post.

Definition Prefix (k s : jsstring) : Prop := exists post, s = k ++ post.

Definition Suffix (k s : jsstring) : Prop := exists pre, s = pre ++ k.

(* ------------------------------------------------------------------ *)
(** ** The popup script: manual analysis *)

Module Popup.

(** The three values the scripts give to [level]. *)
Inductive Level := safe | risky | analyzing.

Definition levelName (l : Level) : jsstring :=
  match l with
  | safe => lit "safe"
  | risky => lit "risky"
  | analyzing => lit "analyzing"
  end.

(** The object [analyzeRiskFactors] returns.  [riskScore] is a JavaScript
    number; every value it takes is a multiple of 0.5 between -4.5 and 14,
    which binary floating point represents exactly, so the rationals compute
    the same sums and comparisons. *)
Record RiskAnalysis := {
  level : Level;
  description : jsstring;
  riskScore : Q;
  foundRisks : list jsstring;
  foundPositives : list jsstring
}.

Definition riskKeywords : list jsstring := [
  lit "sell your data"; lit "third parties"; lit "advertising partners";
  lit "marketing purposes"; lit "indefinitely"; lit "permanent";
  lit "irrevocable"; lit "without notice"; lit "at our discretion";
  lit "no liability"; lit "as is"; lit "no warranty"; lit "indemnify";
  lit "hold harmless" ].

Definition positiveKeywords : list jsstring := [
  lit "not sell"; lit "not share"; lit "encrypted"; lit "secure";
  lit "privacy protection"; lit "opt-out"; lit "delete your data";
  lit "user control"; lit "transparent" ].

(** One turn of [riskKeywords.forEach]: the state is [(riskScore, foundRisks)]. *)
Definition riskStep (text : jsstring) (st : Q * list jsstring)
  (keyword : jsstring) : Q * list jsstring :=
  let (riskScore, foundRisks) := st in
  if includes (toLowerCase text) (toLowerCase keyword)
  then ((riskScore + 1)%Q, foundRisks ++ [keyword])
  else st.

(** One turn of [positiveKeywords.forEach]: [(riskScore, foundPositives)]. *)
Definition positiveStep (text : jsstring) (st : Q * list jsstring)
  (keyword : jsstring) : Q * list jsstring :=
  let (riskScore, foundPositives) := st in
  if includes (toLowerCase text) (toLowerCase keyword)
  then ((riskScore - (1 # 2))%Q, foundPositives ++ [keyword])
  else st.

Definition analyzeRiskFactors (text : jsstring) : RiskAnalysis :=
  let (riskScore1, foundRisks) :=
    fold_left (riskStep text) riskKeywords (0%Q, []) in
  let (riskScore, foundPositives) :=
    fold_left (positiveStep text) positiveKeywords (riskScore1, []) in
  if Qle_bool 3 riskScore then
    {| level := risky;
       description :=
         lit "Multiple risk factors detected. Review carefully before accepting.";
       riskScore := riskScore;
       foundRisks := foundRisks; foundPositives := foundPositives |}
  else if Qle_bool 1 riskScore then
    {| level := risky;
       description := lit "Some concerning terms found. Consider the implications.";
       riskScore := riskScore;
       foundRisks := foundRisks; foundPositives := foundPositives |}
  else
    {| level := safe;
       description :=
         lit "No major red flags detected. Appears to be standard terms.";
       riskScore := riskScore;
       foundRisks := foundRisks; foundPositives := foundPositives |}.

(** *** The optional providers ([window.ai]) *)

(** A promise that was awaited: it resolved to a value or it rejected
    (the [await] throws). *)
Inductive Completion (A : Type) : Type :=
| Resolved (a : A)
| Rejected.

Arguments Rejected {A}.

(** A provider has [create(options)], which resolves to an instance; the
    instance has one method from a string to a promise of a string. *)
Record Provider := { create : Completion (jsstring -> Completion jsstring) }.

Record AI := {
  summarizer : option Provider;
  writer : option Provider;
  rewriter : option Provider
}.

(** A call of an instance's method that was really made, with its argument. *)
Inductive ProviderCall :=
| summarize (text : jsstring)
| write (prompt : jsstring)
| rewrite_ (text : jsstring).

(** *** The popup's document and the effects on it *)

Record World := {
  alerts : list jsstring;                 (* messages shown by alert() *)
  summary_textContent : jsstring;
  keyPoints_risks : list jsstring;        (* the "Contains ..." items *)
  keyPoints_positives : list jsstring;    (* the "Mentions ..." items *)
  results_shown : bool;                   (* results.style.display = 'block' *)
  riskLevel_textContent : jsstring;
  riskLevel_className : jsstring;
  riskDescription_textContent : jsstring;
  analyzeButton_disabled : bool;
  analyzeButton_textContent : jsstring;
  calls : list ProviderCall               (* provider methods invoked so far *)
}.

(** Computations that read and change the world. *)
Definition M (A : Type) : Type := World -> A * World.

Definition ret {A} (a : A) : M A := fun w => (a, w).

Definition bind {A B} (c : M A) (k : A -> M B) : M B :=
  fun w => let (a, w') := c w in k a w'.

Definition exec {A} (c : M A) (w : World) : World := snd (c w).

Declare Scope popup_scope.
Delimit Scope popup_scope with popup.
Notation "x <- c ;; k" := (bind c (fun x => k))
  (at level 61, c at next level, right associativity) : popup_scope.
Notation "c ;; k" := (bind c (fun _ => k))
  (at level 61, right associativity) : popup_scope.
Local Open Scope popup_scope.

Definition alert (msg : jsstring) : M unit := fun w =>
  (tt, {| alerts := alerts w ++ [msg];
          summary_textContent := summary_textContent w;
          keyPoints_risks := keyPoints_risks w;
          keyPoints_positives := keyPoints_positives w;
          results_shown := results_shown w;
          riskLevel_textContent := riskLevel_textContent w;
          riskLevel_className := riskLevel_className w;
          riskDescription_textContent := riskDescription_textContent w;
          analyzeButton_disabled := analyzeButton_disabled w;
          analyzeButton_textContent := analyzeButton_textContent w;
          calls := calls w |}).

Definition record (c : ProviderCall) : M unit := fun w =>
  (tt, {| alerts := alerts w;
          summary_textContent := summary_textContent w;
          keyPoints_risks := keyPoints_risks w;
          keyPoints_positives := keyPoints_positives w;
          results_shown := results_shown w;
          riskLevel_textContent := riskLevel_textContent w;
          riskLevel_className := riskLevel_className w;
          riskDescription_textContent := riskDescription_textContent w;
          analyzeButton_disabled := analyzeButton_disabled w;
          analyzeButton_textContent := analyzeButton_textContent w;
          calls := calls w ++ [c] |}).

Definition setButton (disabled : bool) (label : jsstring) : M unit := fun w =>
  (tt, {| alerts := alerts w;
          summary_textContent := summary_textContent w;
          keyPoints_risks := keyPoints_risks w;
          keyPoints_positives := keyPoints_positives w;
          results_shown := results_shown w;
          riskLevel_textContent := riskLevel_textContent w;
          riskLevel_className := riskLevel_className w;
          riskDescription_textContent := riskDescription_textContent w;
          analyzeButton_disabled := disabled;
          analyzeButton_textContent := label;
          calls := calls w |}).

Definition updateRiskIndicator (level : Level) (description : jsstring)
  : M unit := fun w =>
  (tt, {| alerts := alerts w;
          summary_textContent := summary_textContent w;
          keyPoints_risks := keyPoints_risks w;
          keyPoints_positives := keyPoints_positives w;
          results_shown := results_shown w;
          riskLevel_textContent :=
            match level with
            | analyzing => lit "Analyzing..."
            | safe => lit "Safe"
            | risky => lit "Risky"
            end;
          riskLevel_className := lit "risk-" ++ levelName level;
          riskDescription_textContent := description;
          analyzeButton_disabled := analyzeButton_disabled w;
          analyzeButton_textContent := analyzeButton_textContent w;
          calls := calls w |}).

(** [displayAnalysisResults]: the summary element gets the text, the key
    points element gets one list item per found risk and per found positive
    (kept here as the two lists, not as markup), and the results are shown. *)
Definition displayAnalysisResults (summaryText : jsstring)
  (riskAnalysis : RiskAnalysis) : M unit := fun w =>
  (tt, {| alerts := alerts w;
          summary_textContent := summaryText;
          keyPoints_risks := foundRisks riskAnalysis;
          keyPoints_positives := foundPositives riskAnalysis;
          results_shown := true;
          riskLevel_textContent := riskLevel_textContent w;
          riskLevel_className := riskLevel_className w;
          riskDescription_textContent := riskDescription_textContent w;
          analyzeButton_disabled := analyzeButton_disabled w;
          analyzeButton_textContent := analyzeButton_textContent w;
          calls := calls w |}).

(** [await p.create(...)] followed by [await instance.method(input)] inside
    one [try]: the method is called only when [create] resolved. *)
Definition invoke (p : Provider) (call : jsstring -> ProviderCall)
  (input : jsstring) : M (Completion jsstring) :=
  match create p with
  | Rejected => ret Rejected
  | Resolved method => record (call input) ;; ret (method input)
  end.

(** [window.ai && window.ai.x]: the provider, when there is one. *)
Definition provider (window_ai : option AI) (x : AI -> option Provider)
  : option Provider :=
  match window_ai with
  | Some ai => x ai
  | None => None
  end.

(** The text the script falls back on when no provider gave a summary. *)
Definition heuristicSummary (text : jsstring) : jsstring :=
  lit "Policy contains " ++ ofNat (length (splitWs text))
  ++ lit " words. Analysis based on risk keyword detection.".

Definition writerPrompt (summaryText : jsstring) : jsstring :=
  lit "Rewrite this privacy policy summary to highlight key risks and benefits in simple terms: "
  ++ summaryText.

(** First block of [analyzePolicyText]: the Summarizer API. *)
Definition condense (window_ai : option AI) (text : jsstring) : M jsstring :=
  match provider window_ai summarizer with
  | Some p =>
      r <- invoke p summarize text ;;
      match r with
      | Resolved s => ret s
      | Rejected => ret []                 (* catch: summaryText stays '' *)
      end
  | None => ret []
  end.

(** Second block: the Writer API, entered only with a non-empty summary. *)
Definition reframe (window_ai : option AI) (summaryText : jsstring)
  : M jsstring :=
  match provider window_ai writer with
  | Some p =>
      if truthy summaryText then
        r <- invoke p write (writerPrompt summaryText) ;;
        match r with
        | Resolved s => ret s
        | Rejected => ret summaryText      (* catch: enhancedSummary = summaryText *)
        end
      else ret []
  | None => ret []
  end.

(** Third block: the Rewriter API, entered only with a non-empty
    enhanced summary. *)
Definition polish (window_ai : option AI) (enhancedSummary : jsstring)
  : M jsstring :=
  match provider window_ai rewriter with
  | Some p =>
      if truthy enhancedSummary then
        r <- invoke p rewrite_ enhancedSummary ;;
        match r with
        | Resolved s => ret s
        | Rejected => ret enhancedSummary  (* catch: keep what we have *)
        end
      else ret enhancedSummary
  | None => ret enhancedSummary
  end.

(** [analyzePolicyText].  Nothing outside the three inner [try] blocks can
    throw on a string, so the outer [catch] (with [performFallbackAnalysis])
    is never entered and is left out. *)
Definition analyzePolicyText (window_ai : option AI) (text : jsstring)
  : M unit :=
  summaryText <- condense window_ai text ;;
  enhancedSummary <- reframe window_ai summaryText ;;
  enhancedSummary <- polish window_ai enhancedSummary ;;
  let riskAnalysis := analyzeRiskFactors text in
  let finalSummary :=
    or_else enhancedSummary (or_else summaryText (heuristicSummary text)) in
  displayAnalysisResults finalSummary riskAnalysis ;;
  updateRiskIndicator (level riskAnalysis) (description riskAnalysis).

(** The click handler of the Analyze button; [value] is [policyText.value]. *)
Definition analyzeButton_click (window_ai : option AI) (value : jsstring)
  : M unit :=
  let text := trim value in
  if negb (truthy text) then
    alert (lit "Please paste some policy text to analyze")
  else if length text <? 100 then
    alert (lit "Please provide more text for a meaningful analysis (at least 100 characters)")
  else
    setButton true (lit "Analyzing...") ;;
    analyzePolicyText window_ai text ;;
    setButton false (lit "Analyze Policy").   (* finally *)

End Popup.

(* ------------------------------------------------------------------ *)
(** ** The background script: the function injected into the page *)

(** What [detectPolicyContent] reads of an [a[href]] element. *)
Module Element.

Record t := {
  textContent : jsstring;          (* link.textContent when the scan starts *)
  href : jsstring;                 (* link.href, the resolved URL *)
  aria_label : option jsstring;    (* getAttribute('aria-label'), null = None *)
  title : option jsstring;         (* getAttribute('title') *)
  (* link.querySelector('.policy-peek-indicator') when the scan starts *)
  ownIndicator : bool;
  (* link.parentElement.querySelector('.policy-peek-indicator') likewise *)
  parentIndicator : bool;
  (* positions, in the list of links, of the links that lie inside
     link.parentElement: an indicator put into one of them is found by
     the parent's querySelector *)
  parentLinks : list nat
}.

End Element.

Module Background.

Definition policyKeywords : list jsstring := [
  lit "privacy policy"; lit "terms of service"; lit "terms and conditions";
  lit "cookie policy"; lit "cookies policy"; lit "data protection";
  lit "user agreement"; lit "privacy notice"; lit "terms of use";
  lit "legal notice"; lit "gdpr"; lit "ccpa"; lit "cookie notice";
  lit "cookie consent"; lit "privacy statement"; lit "legal terms";
  lit "acceptable use"; lit "end user license"; lit "eula";
  lit "terms & conditions"; lit "terms"; lit "data policy"; lit "cookie user";
  lit "cookie settings"; lit "privacy settings"; lit "manage cookies";
  lit "cookie preferences"; lit "privacy center"; lit "legal";
  lit "privacy rights"; lit "data use policy"; lit "cookie information";
  lit "cookie details"; lit "privacy information"; lit "cookie banner";
  lit "terms of use policy" ].

Definition riskyKeywords : list jsstring := [
  lit "sell your data"; lit "third parties"; lit "advertising partners";
  lit "indefinitely"; lit "without notice"; lit "at our discretion";
  lit "no liability"; lit "as is"; lit "no warranty" ].

(** What the function reads of the page: [document.body.innerText], the
    elements of [document.querySelectorAll('a[href]')] in document order
    (no link inside another), and [window.location]. *)
Record Page := {
  innerText : jsstring;
  links : list Element.t;
  location_hostname : jsstring;
  location_href : jsstring
}.

(** An entry of [foundPolicyLinks]. *)
Record PolicyLink := { text : jsstring; href : jsstring }.

(** The object the function returns. *)
Record Report := {
  hasPolicyContent : bool;
  hasRiskyKeywords : bool;
  foundPolicyLinks : list PolicyLink;
  foundRiskyTerms : list jsstring;
  hostname : jsstring;
  url : jsstring
}.

(** [a.slice(start, end)] for non-negative [start] and [end]. *)
Definition slice {A} (start end_ : nat) (a : list A) : list A :=
  firstn (end_ - start) (skipn start a).

(** The text of the indicator element: U+26A0 U+FE0F. *)
Definition indicatorText : jsstring := [9888%N; 65039%N].

Definition mem (i : nat) (l : list nat) : bool := existsb (Nat.eqb i) l.

(** [link.textContent] now: [marked] lists the links to which this scan has
    appended an indicator element; its text is part of the link's text. *)
Definition textContentNow (marked : list nat) (i : nat) (link : Element.t)
  : jsstring :=
  Element.textContent link ++ (if mem i marked then indicatorText else []).

(** [addPolicyLinkIndicator]: nothing is added when the link, or the link's
    parent element, already holds an indicator. *)
Definition addPolicyLinkIndicator (marked : list nat) (i : nat)
  (linkElement : Element.t) : list nat :=
  if (Element.ownIndicator linkElement || mem i marked)
     || (Element.parentIndicator linkElement
         || existsb (fun j => mem j marked) (Element.parentLinks linkElement))
  then marked
  else marked ++ [i].

Definition attribute (a : option jsstring) : jsstring :=
  match a with Some s => s | None => [] end.

(** The test [isMatch] of the inner loop. *)
Definition isMatch (linkText href ariaLabel title keyword : jsstring) : bool :=
  let keywordLower := toLowerCase keyword in
  includes linkText keywordLower
  || includes href (replaceWs [] keywordLower)
  || includes href (replaceWs (lit "-") keywordLower)
  || includes href (replaceWs (lit "_") keywordLower)
  || includes ariaLabel keywordLower
  || includes title keywordLower
  || includes (stripPunctuation linkText) keywordLower
  || startsWith linkText keywordLower
  || endsWith linkText keywordLower.

(** One turn of the inner [policyKeywords.forEach] for link number [i].
    The state is [(foundPolicyLinks, marked)]; the four strings were read
    before the inner loop, the duplicate test and the new entry read
    [link.textContent] again. *)
Definition keywordStep (i : nat) (link : Element.t)
  (linkText href ariaLabel title : jsstring)
  (st : list PolicyLink * list nat) (keyword : jsstring)
  : list PolicyLink * list nat :=
  let (foundPolicyLinks, marked) := st in
  if isMatch linkText href ariaLabel title keyword then
    let alreadyExists :=
      existsb (fun existing =>
                 str_eqb (Background.href existing) (Element.href link)
                 && str_eqb (text existing) (trim (textContentNow marked i link)))
              foundPolicyLinks in
    if negb alreadyExists then
      (foundPolicyLinks ++
         [ {| text := trim (textContentNow marked i link);
              href := Element.href link |} ],
       addPolicyLinkIndicator marked i link)
    else st
  else st.

(** One turn of [links.forEach]. *)
Definition linkStep (st : list PolicyLink * list nat)
  (il : nat * Element.t) : list PolicyLink * list nat :=
  let (i, link) := il in
  let linkText := trim (toLowerCase (textContentNow (snd st) i link)) in
  let href := toLowerCase (Element.href link) in
  let ariaLabel := toLowerCase (attribute (Element.aria_label link)) in
  let title := toLowerCase (attribute (Element.title link)) in
  fold_left (keywordStep i link linkText href ariaLabel title)
            policyKeywords st.

(** The loop over the links: the entries found and the links marked. *)
Definition scanLinks (links : list Element.t) : list PolicyLink * list nat :=
  fold_left linkStep (combine (seq 0 (length links)) links) ([], []).

(** One turn of [riskyKeywords.forEach]: [(hasRiskyKeywords, foundRiskyTerms)]. *)
Definition riskyStep (pageText : jsstring) (st : bool * list jsstring)
  (keyword : jsstring) : bool * list jsstring :=
  let (hasRiskyKeywords, foundRiskyTerms) := st in
  if includes pageText (toLowerCase keyword)
  then (true, foundRiskyTerms ++ [keyword])
  else st.

Definition policyStep (pageText : jsstring) (hasPolicyContent : bool)
  (keyword : jsstring) : bool :=
  if includes pageText (toLowerCase keyword) then true else hasPolicyContent.

Definition scanRisky (pageText : jsstring) : bool * list jsstring :=
  fold_left (riskyStep pageText) riskyKeywords (false, []).

Definition detectPolicyContent (page : Page) : Report :=
  let pageText := toLowerCase (innerText page) in
  let hasPolicyContent :=
    fold_left (policyStep pageText) policyKeywords false in
  let (hasRiskyKeywords, foundRiskyTerms) := scanRisky pageText in
  let (foundPolicyLinks, _) := scanLinks (links page) in
  {| hasPolicyContent := hasPolicyContent;
     hasRiskyKeywords := hasRiskyKeywords;
     foundPolicyLinks := slice 0 5 foundPolicyLinks;
     foundRiskyTerms := slice 0 5 foundRiskyTerms;
     hostname := location_hostname page;
     url := location_href page |}.

End Background.

(* ------------------------------------------------------------------ *)
(** ** The background script: the service worker *)

Module Worker.

Import stdpp.base stdpp.gmap.

(** A value that a message or the storage carries (no array, no object:
    for the one test made on such a value, [!== false], they behave as
    [JNull] does). *)
Inductive Json :=
| JNull
| JBool (b : bool)
| JNumber (z : Z)
| JString (s : jsstring).

(** The object stored for a tab by [analyzePageForPolicies]. *)
Record Analysis := {
  url : jsstring;
  hostname : jsstring;
  policyData : Background.Report;
  timestamp : N
}.

(** What [chrome.storage.local] holds under a key. *)
Inductive Stored :=
| StoredAnalysis (a : Analysis)
| StoredValue (v : Json).

(** A notification as passed to [chrome.notifications.create]. *)
Record Notification := {
  type : jsstring;
  iconUrl : jsstring;
  title : jsstring;
  message : jsstring
}.

(** The part of the browser the service worker acts on: the local storage,
    the badge text and badge colour of each tab, the notifications created. *)
Record Browser := {
  storage : gmap jsstring Stored;
  badgeText : gmap nat jsstring;
  badgeBackgroundColor : gmap nat jsstring;
  notifications : list Notification
}.

(** [`analysis_${tabId}`] *)
Definition analysisKey (tabId : nat) : jsstring :=
  lit "analysis_" ++ ofNat tabId.

Definition autoOpenKey : jsstring := lit "autoOpenEnabled".

Definition storage_set (key : jsstring) (v : Stored) (b : Browser) : Browser :=
  {| storage := <[key := v]> (storage b);
     badgeText := badgeText b;
     badgeBackgroundColor := badgeBackgroundColor b;
     notifications := notifications b |}.


Definition setBadge (tabId : nat) (text color : jsstring) (b : Browser)
  : Browser :=
  {| storage := storage b;
     badgeText := <[tabId := text]> (badgeText b);
     badgeBackgroundColor := <[tabId := color]> (badgeBackgroundColor b);
     notifications := notifications b |}.

Definition notify (n : Notification) (b : Browser) : Browser :=
  {| storage := storage b;
     badgeText := badgeText b;
     badgeBackgroundColor := badgeBackgroundColor b;
     notifications := notifications b ++ [n] |}.

(** [getAutoOpenSetting]: [result.autoOpenEnabled !== false]. *)
Definition getAutoOpenSetting (b : Browser) : bool :=
  match storage b !! autoOpenKey with
  | Some (StoredValue (JBool false)) => false
  | _ => true
  end.

(** The warning sign U+26A0 U+FE0F and the page sign U+1F4C4. *)
Definition warningSign : jsstring := [9888%N; 65039%N].
Definition pageSign : jsstring := [55357%N; 56516%N].

Definition alertNotification (policyData : Background.Report) : Notification :=
  {| type := lit "basic";
     iconUrl := lit "data:image/svg+xml;base64,PHN2ZyB3aWR0aD0iNDgiIGhlaWdodD0iNDgiIHZpZXdCb3g9IjAgMCA0OCA0OCIgZmlsbD0ibm9uZSIgeG1sbnM9Imh0dHA6Ly93d3cudzMub3JnLzIwMDAvc3ZnIj4KPHJlY3Qgd2lkdGg9IjQ4IiBoZWlnaHQ9IjQ4IiBmaWxsPSIjNjY3ZWVhIiByeD0iNCIvPgo8cGF0aCBkPSJNMTIgMThoMjR2M0gxMnptMCA2aDI0djNIMTJ6bTAgNmgxOHYzSDEyeiIgZmlsbD0id2hpdGUiLz4KPC9zdmc+";
     title := lit "Policy Peek Alert";
     message :=
       lit "Potential privacy risks detected on "
       ++ Background.hostname policyData
       ++ lit ". Click the extension icon to analyze." |}.

(** [showPolicyAlert] *)
Definition showPolicyAlert (tabId : nat) (policyData : Background.Report)
  (b : Browser) : Browser :=
  let b1 :=
    if Background.hasRiskyKeywords policyData
    then setBadge tabId warningSign (lit "#f44336") b
    else if Background.hasPolicyContent policyData
    then setBadge tabId pageSign (lit "#ff9800") b
    else b in
  let autoOpenEnabled := getAutoOpenSetting b1 in
  if autoOpenEnabled && Background.hasRiskyKeywords policyData
  then notify (alertNotification policyData) b1
  else b1.

(** What the worker gets from outside when it analyses a tab: the answer of
    [chrome.scripting.executeScript] (one entry per frame, each with the
    value the injected function returned, if any), the host name that
    [new URL(tab.url)] gives for the tab's URL (or its exception), and
    [Date.now()]. *)
Record Visit := {
  executeScript : Popup.Completion (list (option Background.Report));
  URL_hostname : Popup.Completion jsstring;
  Date_now : N
}.

(** [analyzePageForPolicies]; every exception ends in its [catch], which
    only logs. *)
Definition analyzePageForPolicies (tabId : nat) (tab_url : jsstring)
  (v : Visit) (b : Browser) : Browser :=
  match executeScript v with
  | Popup.Resolved (Some policyData :: _) =>
      if Background.hasPolicyContent policyData
         || Background.hasRiskyKeywords policyData
      then
        match URL_hostname v with
        | Popup.Resolved host =>
            let b1 :=
              storage_set (analysisKey tabId)
                (StoredAnalysis {| url := tab_url;
                                   hostname := host;
                                   policyData := policyData;
                                   timestamp := Date_now v |}) b in
            showPolicyAlert tabId policyData b1
        | Popup.Rejected => b
        end
      else b
  | _ => b
  end.

(** The [chrome.tabs.onUpdated] listener, once its timer has fired:
    [status] is [changeInfo.status], [url] is [tab.url]. *)
Definition onUpdated (tabId : nat) (status : jsstring)
  (url : option jsstring) (v : Visit) (b : Browser) : Browser :=
  match url with
  | Some u =>
      if negb (str_eqb status (lit "complete")) || negb (truthy u) then b
      else if startsWith u (lit "chrome://")
              || startsWith u (lit "chrome-extension://") then b
      else analyzePageForPolicies tabId u v b
  | None => b
  end.


(** A message to the worker, by its [action]. *)
Inductive Request :=
| getPageAnalysis (tabId : nat)
| setAutoOpen (enabled : Json)
| otherAction.

(** What [sendResponse] is called with, if it is called. *)
Inductive Reply :=
| pageAnalysis (stored : option Stored)     (* result[key] || null *)
| success                                   (* { success: true } *)
| noReply.

(** The [chrome.runtime.onMessage] listener. *)
Definition onMessage (request : Request) (b : Browser) : Reply * Browser :=
  match request with
  | getPageAnalysis tabId =>
      (pageAnalysis (storage b !! analysisKey tabId), b)
  | setAutoOpen enabled =>
      (success, storage_set autoOpenKey (StoredValue enabled) b)
  | otherAction => (noReply, b)
  end.

End Worker.

(* ------------------------------------------------------------------ *)
(** ** The popup script: the fallback summary, the page analysis, the status *)

Module PopupPage.

Import Popup.

(** A number inside a template literal, for the multiples of 0.5 (all a
    risk score can be): sign, integer part, and ".5" for an odd number of
    halves. *)
Definition numberToString (q : Q) : jsstring :=
  let halves := Qfloor (q * 2) in
  let a := Z.abs_nat halves in
  (if (halves <? 0)%Z then lit "-" else [])
  ++ ofNat (a / 2)
  ++ (if Nat.odd a then lit ".5" else []).

(** The object [performFallbackAnalysis] returns. *)
Record FallbackAnalysis := {
  fb_summary : jsstring;
  fb_level : Level;
  fb_description : jsstring;
  fb_riskScore : Q;
  fb_foundRisks : list jsstring;
  fb_foundPositives : list jsstring
}.

Definition performFallbackAnalysis (text : jsstring) : FallbackAnalysis :=
  let wordCount := length (splitWs text) in
  let riskAnalysis := analyzeRiskFactors text in
  let summary :=
    lit "Analysis of " ++ ofNat wordCount
    ++ lit " words completed using keyword detection. " in
  let summary :=
    if (0 <? length (foundRisks riskAnalysis))%nat
    then summary ++ lit "Found " ++ ofNat (length (foundRisks riskAnalysis))
         ++ lit " potential risk factor(s). "
    else summary in
  let summary :=
    if (0 <? length (foundPositives riskAnalysis))%nat
    then summary ++ lit "Also identified "
         ++ ofNat (length (foundPositives riskAnalysis))
         ++ lit " positive privacy aspect(s). "
    else summary in
  let summary :=
    if Qle_bool 3 (riskScore riskAnalysis)
    then summary ++ lit "High risk score ("
         ++ numberToString (riskScore riskAnalysis)
         ++ lit ") suggests careful review recommended."
    else if Qle_bool 1 (riskScore riskAnalysis)
    then summary ++ lit "Moderate risk score ("
         ++ numberToString (riskScore riskAnalysis)
         ++ lit ") - some concerns identified."
    else summary ++ lit "Low risk score ("
         ++ numberToString (riskScore riskAnalysis)
         ++ lit ") - appears to be standard terms." in
  {| fb_summary := summary;
     fb_level := level riskAnalysis;
     fb_description := description riskAnalysis;
     fb_riskScore := riskScore riskAnalysis;
     fb_foundRisks := foundRisks riskAnalysis;
     fb_foundPositives := foundPositives riskAnalysis |}.

(** *** The availability of the AI APIs ([config.js]) and its badge *)

(** [window.ai] with its five properties; of the translator and the
    proofreader, which the popup never calls, only whether they are there. *)
Record WindowAI := {
  core : AI;
  translator : bool;
  proofreader : bool
}.

Record Availability := {
  av_summarizer : bool;
  av_writer : bool;
  av_rewriter : bool;
  av_translator : bool;
  av_proofreader : bool
}.

Definition present {A} (x : option A) : bool :=
  match x with Some _ => true | None => false end.

(** [checkAIAvailability] of [config.js]. *)
Definition checkAIAvailability (window_ai : option WindowAI) : Availability :=
  match window_ai with
  | Some ai =>
      {| av_summarizer := present (summarizer (core ai));
         av_writer := present (writer (core ai));
         av_rewriter := present (rewriter (core ai));
         av_translator := translator ai;
         av_proofreader := proofreader ai |}
  | None =>
      {| av_summarizer := false; av_writer := false; av_rewriter := false;
         av_translator := false; av_proofreader := false |}
  end.

(** The stand-in the popup uses when [window.PolicyPeekConfig] is missing. *)
Definition noAvailability : Availability :=
  {| av_summarizer := false; av_writer := false; av_rewriter := false;
     av_translator := false; av_proofreader := false |}.

(** [Object.entries(aiAvailability)], values only. *)
Definition entries (a : Availability) : list bool :=
  [av_summarizer a; av_writer a; av_rewriter a; av_translator a;
   av_proofreader a].

(** The text [displayAIStatus] puts into the status badge. *)
Definition statusText (aiAvailability : Availability) : jsstring :=
  let availableAPIs := length (filter (fun available => available)
                                      (entries aiAvailability)) in
  let totalAPIs := length (entries aiAvailability) in
  if (0 <? availableAPIs)%nat
  then lit "AI: " ++ ofNat availableAPIs ++ lit "/" ++ ofNat totalAPIs
  else lit "AI: Fallback Mode".

(** *** The popup's document, with what the page analysis adds to it *)

Record Doc := {
  world : World;
  (* the blocks of links that displayPolicyLinks appended to riskIndicator *)
  policyLinks : list (list Background.PolicyLink);
  (* the texts of the status badges appended to the container *)
  statusBadges : list jsstring;
  (* the tabs for which chrome.scripting.executeScript was called *)
  injected : list nat
}.

Definition onWorld (c : M unit) (d : Doc) : Doc :=
  {| world := exec c (world d);
     policyLinks := policyLinks d;
     statusBadges := statusBadges d;
     injected := injected d |}.

(** [displayAIStatus], the container being there. *)
Definition displayAIStatus (aiAvailability : Availability) (d : Doc) : Doc :=
  {| world := world d;
     policyLinks := policyLinks d;
     statusBadges := statusBadges d ++ [statusText aiAvailability];
     injected := injected d |}.

(** [displayPolicyLinks]: one list item per link (kept as the links, not as
    markup). *)
Definition displayPolicyLinks (links : list Background.PolicyLink) (d : Doc)
  : Doc :=
  {| world := world d;
     policyLinks := policyLinks d ++ [links];
     statusBadges := statusBadges d;
     injected := injected d |}.

(** [a.join(sep)] *)
Fixpoint join (sep : jsstring) (a : list jsstring) : jsstring :=
  match a with
  | [] => []
  | [x] => x
  | x :: a' => x ++ sep ++ join sep a'
  end.

Definition displayAutoDetectedAnalysis (analysisData : Worker.Analysis)
  (d : Doc) : Doc :=
  let policyData := Worker.policyData analysisData in
  let hostname := Worker.hostname analysisData in
  let (level, description) :=
    if Background.hasRiskyKeywords policyData then
      (risky,
       lit "Potential privacy risks detected on " ++ hostname
       ++ lit ". Found: "
       ++ join (lit ", ") (Background.foundRiskyTerms policyData))
    else if Background.hasPolicyContent policyData then
      (safe,
       lit "Privacy policy detected on " ++ hostname ++ lit ". "
       ++ ofNat (length (Background.foundPolicyLinks policyData))
       ++ lit " policy links found.")
    else
      (safe, hostname ++ lit " appears to have standard privacy practices.") in
  let d1 := onWorld (updateRiskIndicator level description) d in
  if (0 <? length (Background.foundPolicyLinks policyData))%nat
  then displayPolicyLinks (Background.foundPolicyLinks policyData) d1
  else d1.

(** *** The function that [performRealTimeAnalysis] injects into the page *)

Record RealTime := {
  rt_hasPolicyContent : bool;
  rt_hasRiskyKeywords : bool;
  rt_hostname : jsstring
}.

Definition realTimePolicyKeywords : list jsstring :=
  [lit "privacy policy"; lit "terms of service"; lit "cookie policy"].

Definition realTimeRiskyKeywords : list jsstring :=
  [lit "sell your data"; lit "third parties"; lit "without notice"].

(** One turn of either [forEach]: [if (pageText.includes(keyword)) flag = true]. *)
Definition flagStep (pageText : jsstring) (flag : bool) (keyword : jsstring)
  : bool :=
  if includes pageText keyword then true else flag.

Definition realTimeScan (page : Background.Page) : RealTime :=
  let pageText := toLowerCase (Background.innerText page) in
  {| rt_hasPolicyContent :=
       fold_left (flagStep pageText) realTimePolicyKeywords false;
     rt_hasRiskyKeywords :=
       fold_left (flagStep pageText) realTimeRiskyKeywords false;
     rt_hostname := Background.location_hostname page |}.

(** *** The page analysis of the popup *)

Record Tab := { id : nat; url : option jsstring }.

(** What the browser answers to the popup: the tabs of
    [chrome.tabs.query], the response to the [getPageAnalysis] message for
    a tab, the result of [chrome.scripting.executeScript] in a tab (one
    entry per frame, with the value of the injected function, if any), and
    the host name [new URL(url)] gives, each of them or its exception. *)
Record Chrome := {
  tabs_query : Completion (list Tab);
  runtime_sendMessage : nat -> Completion (option Worker.Stored);
  scripting_executeScript : nat -> Completion (list (option RealTime));
  URL_hostname : jsstring -> Completion jsstring
}.

(** Computations on the document that may throw. *)
Definition E (A : Type) : Type := Doc -> Completion A * Doc.

Definition pure {A} (a : A) : E A := fun d => (Resolved a, d).

Definition throw {A} : E A := fun d => (Rejected, d).

Definition andThen {A B} (c : E A) (k : A -> E B) : E B :=
  fun d =>
    match c d with
    | (Resolved a, d') => k a d'
    | (Rejected, d') => (Rejected, d')
    end.

(** [try { c } catch { handler }] *)
Definition tryCatch {A} (c handler : E A) : E A :=
  fun d =>
    match c d with
    | (Resolved a, d') => (Resolved a, d')
    | (Rejected, d') => handler d'
    end.

(** [await p]: the value, or the exception. *)
Definition await {A} (p : Completion A) : E A := fun d => (p, d).

Definition effect (f : Doc -> Doc) : E unit := fun d => (Resolved tt, f d).

Definition indicate (level : Level) (description : jsstring) : E unit :=
  effect (onWorld (updateRiskIndicator level description)).

Definition inject (tabId : nat) : E unit :=
  effect (fun d => {| world := world d;
                      policyLinks := policyLinks d;
                      statusBadges := statusBadges d;
                      injected := injected d ++ [tabId] |}).

(** [new URL(tab.url).hostname] *)
Definition hostnameOf (chrome : Chrome) (tab : Tab) : E jsstring :=
  match url tab with
  | Some u => await (URL_hostname chrome u)
  | None => throw
  end.

Definition performRealTimeAnalysis (chrome : Chrome) (tab : Tab) : E unit :=
  tryCatch
    (andThen (inject (id tab)) (fun _ =>
     andThen (await (scripting_executeScript chrome (id tab))) (fun results =>
     match results with
     | Some analysis :: _ =>
         if rt_hasRiskyKeywords analysis then
           indicate risky
             (lit "Potential privacy risks detected on " ++ rt_hostname analysis)
         else if rt_hasPolicyContent analysis then
           indicate safe
             (lit "Privacy policy content found on " ++ rt_hostname analysis)
         else
           indicate safe
             (rt_hostname analysis
              ++ lit " appears to have standard privacy practices.")
     | None :: _ => throw          (* analysis.hostname of no object *)
     | [] =>
         andThen (hostnameOf chrome tab) (fun hostname =>
         indicate safe
           (hostname
            ++ lit " - No policy content detected. Use manual analysis below."))
     end)))
    (andThen (hostnameOf chrome tab) (fun hostname =>
     indicate safe
       (hostname ++ lit " - Click " ++ [34%N] ++ lit "Analyze Custom Policy"
        ++ [34%N] ++ lit " to check specific terms."))).

Definition analyzeCurrentPage (chrome : Chrome) : E unit :=
  tryCatch
    (andThen (indicate analyzing (lit "Analyzing current website...")) (fun _ =>
     andThen (await (tabs_query chrome)) (fun tabs =>
     match tabs with
     | [] => indicate safe (lit "No active tab found")
     | tab :: _ =>
         tryCatch
           (andThen (await (runtime_sendMessage chrome (id tab)))
              (fun response =>
                 match response with
                 | Some (Worker.StoredAnalysis analysisData) =>
                     effect (displayAutoDetectedAnalysis analysisData)
                 | _ => performRealTimeAnalysis chrome tab
                 end))
           (performRealTimeAnalysis chrome tab)
     end)))
    (indicate risky (lit "Could not analyze current page")).

(** [init]: [configLoaded] tells whether [window.PolicyPeekConfig] gave the
    popup the functions of [config.js]. *)
Definition init (configLoaded : bool) (window_ai : option WindowAI)
  (chrome : Chrome) : E unit :=
  let aiAvailability :=
    if configLoaded then checkAIAvailability window_ai else noAvailability in
  andThen (effect (displayAIStatus aiAvailability)) (fun _ =>
  analyzeCurrentPage chrome).

End PopupPage.

(* ------------------------------------------------------------------ *)
(** ** The injected functions in a document *)

Module Injection.

(** An element that [a[href]] selects: an HTML anchor, whose [href] is a
    string, or an SVG anchor, whose [href] is an [SVGAnimatedString] object
    and has no [toLowerCase]. *)
Inductive Anchor :=
| htmlAnchor (link : Element.t)
| svgAnchor.

(** The document an injected function runs in: the text of its body (none
    when [document.body] is [null]), its [a[href]] elements in document
    order, and [window.location]. *)
Record Document := {
  body : option jsstring;
  anchors : list Anchor;
  location_hostname : jsstring;
  location_href : jsstring
}.

Definition isHtml (a : Anchor) : bool :=
  match a with htmlAnchor _ => true | svgAnchor => false end.

Definition allHtml (anchors : list Anchor) : bool := forallb isHtml anchors.

Fixpoint htmlOnly (anchors : list Anchor) : list Element.t :=
  match anchors with
  | [] => []
  | htmlAnchor link :: rest => link :: htmlOnly rest
  | svgAnchor :: rest => htmlOnly rest
  end.

(** The page that [Background.detectPolicyContent] reads, for a document
    with a body; when every anchor is an HTML anchor the links keep their
    positions. *)
Definition pageOf (doc : Document) (text : jsstring) : Background.Page :=
  {| Background.innerText := text;
     Background.links := htmlOnly (anchors doc);
     Background.location_hostname := location_hostname doc;
     Background.location_href := location_href doc |}.

(** [detectPolicyContent] as it runs in a document: [document.body.innerText]
    throws without a body, and [link.href.toLowerCase()] throws at the first
    SVG anchor, so that no report is returned; otherwise the report is the
    one of [Background.detectPolicyContent]. *)
Definition injectedDetectPolicyContent (doc : Document)
  : Popup.Completion Background.Report :=
  match body doc with
  | None => Popup.Rejected
  | Some text =>
      if allHtml (anchors doc)
      then Popup.Resolved (Background.detectPolicyContent (pageOf doc text))
      else Popup.Rejected
  end.

(** The function that [performRealTimeAnalysis] injects, as it runs in a
    document: it reads the body's text and no link. *)
Definition injectedRealTimeScan (doc : Document)
  : Popup.Completion PopupPage.RealTime :=
  match body doc with
  | None => Popup.Rejected
  | Some text => Popup.Resolved (PopupPage.realTimeScan (pageOf doc text))
  end.

End Injection.

(* ------------------------------------------------------------------ *)
(** ** Vocabulary of the statements *)

(** The phrases of [keywords], in their order, that occur in [text] without
    regard to case. *)
Definition matched (keywords : list jsstring) (text : jsstring)
  : list jsstring :=
  filter (fun keyword => includes (toLowerCase text) (toLowerCase keyword))
         keywords.

(** How many phrases a list holds, as a JavaScript number. *)
Definition count (l : list jsstring) : Q := inject_Z (Z.of_nat (length l)).

(** A provider that cannot contribute: there is none, or [create] rejects,
    or the instance's method rejects whatever it is given. *)
Definition unavailable (p : option Popup.Provider) : Prop :=
  match p with
  | None => True
  | Some p =>
      match Popup.create p with
      | Popup.Rejected => True
      | Popup.Resolved method => forall input, method input = Popup.Rejected
      end
  end.


(** A provider whose method always resolves to the same text. *)
Definition constantProvider (out : jsstring) : Popup.Provider :=
  {| Popup.create := Popup.Resolved (fun _ => Popup.Resolved out) |}.

(** A provider whose method always rejects. *)
Definition failingProvider : Popup.Provider :=
  {| Popup.create := Popup.Resolved (fun _ => Popup.Rejected) |}.


(** All three providers are there and all three reject. *)
Definition allFailing : Popup.AI :=
  {| Popup.summarizer := Some failingProvider;
     Popup.writer := Some failingProvider;
     Popup.rewriter := Some failingProvider |}.



(** A phrase that neither starts nor ends with white space (and is not
    empty). *)
Definition headSolid (k : jsstring) : Prop :=
  match k with
  | [] => False
  | c :: _ => isWhiteSpace c = false
  end.

Definition solid (k : jsstring) : Prop := headSolid k /\ headSolid (rev k).


(** A link alone in its parent element, with no attribute and no indicator;
    [i] is its position among the links of the page. *)
Definition plainLink (i : nat) (text url : jsstring) : Element.t :=
  {| Element.textContent := text;
     Element.href := url;
     Element.aria_label := None;
     Element.title := None;
     Element.ownIndicator := false;
     Element.parentIndicator := false;
     Element.parentLinks := [i] |}.

(** A page whose only link reads "Terms of Service". *)
Definition termsPage : Background.Page :=
  {| Background.innerText := lit "Terms of Service";
     Background.links :=
       [plainLink 0 (lit "Terms of Service") (lit "https://example.com/terms")];
     Background.location_hostname := lit "example.com";
     Background.location_href := lit "https://example.com/" |}.

(** A page with six policy links and six risk phrases. *)
Definition busyPage : Background.Page :=
  {| Background.innerText :=
       lit "We sell your data to third parties and advertising partners indefinitely, without notice, at our discretion.";
     Background.links :=
       [plainLink 0 (lit "Privacy Policy") (lit "https://example.com/a");
        plainLink 1 (lit "Cookie Policy") (lit "https://example.com/b");
        plainLink 2 (lit "Data Protection") (lit "https://example.com/c");
        plainLink 3 (lit "User Agreement") (lit "https://example.com/d");
        plainLink 4 (lit "Privacy Notice") (lit "https://example.com/e");
        plainLink 5 (lit "GDPR") (lit "https://example.com/f")];
     Background.location_hostname := lit "example.com";
     Background.location_href := lit "https://example.com/" |}.

(** A page with the given text and no link. *)
Definition textPage (text : jsstring) : Background.Page :=
  {| Background.innerText := text;
     Background.links := [];
     Background.location_hostname := lit "example.com";
     Background.location_href := lit "https://example.com/" |}.

(** Membership in the page scanner's list of risk phrases. *)
Definition inRiskyKeywords (k : jsstring) : bool :=
  existsb (str_eqb k) Background.riskyKeywords.

(** A world with its list of provider calls replaced. *)
Definition setCalls (cs : list Popup.ProviderCall) (w : Popup.World)
  : Popup.World :=
  {| Popup.alerts := Popup.alerts w;
     Popup.summary_textContent := Popup.summary_textContent w;
     Popup.keyPoints_risks := Popup.keyPoints_risks w;
     Popup.keyPoints_positives := Popup.keyPoints_positives w;
     Popup.results_shown := Popup.results_shown w;
     Popup.riskLevel_textContent := Popup.riskLevel_textContent w;
     Popup.riskLevel_className := Popup.riskLevel_className w;
     Popup.riskDescription_textContent := Popup.riskDescription_textContent w;
     Popup.analyzeButton_disabled := Popup.analyzeButton_disabled w;
     Popup.analyzeButton_textContent := Popup.analyzeButton_textContent w;
     Popup.calls := cs |}.

(** Three providers that work: they answer "Condensed.", "Reframed." and
    the given text. *)
Definition workingChain (polished : jsstring) : Popup.AI :=
  {| Popup.summarizer := Some (constantProvider (lit "Condensed."));
     Popup.writer := Some (constantProvider (lit "Reframed."));
     Popup.rewriter := Some (constantProvider polished) |}.

(** A summarizer and a rewriter that work, and no writer. *)
Definition noWriter : Popup.AI :=
  {| Popup.summarizer := Some (constantProvider (lit "Condensed."));
     Popup.writer := None;
     Popup.rewriter := Some (constantProvider (lit "Polished.")) |}.

(** A text of more than 100 characters with three risk phrases. *)
Definition longText : jsstring :=
  lit "  This Privacy Policy explains that we may sell your data to third parties without notice, whenever we see fit.  ".

(** The test of [addPolicyLinkIndicator]: the link or its parent holds an
    indicator now. *)
Definition blockedNow (marked : list nat) (i : nat) (link : Element.t) : bool :=
  (Element.ownIndicator link || Background.mem i marked)
  || (Element.parentIndicator link
      || existsb (fun j => Background.mem j marked) (Element.parentLinks link)).

(** The entry that a match of the link would add now. *)
Definition entryNow (marked : list nat) (i : nat) (link : Element.t)
  : Background.PolicyLink :=
  {| Background.text := trim (Background.textContentNow marked i link);
     Background.href := Element.href link |}.

(** The duplicate test of the inner loop, for an entry. *)
Definition listed (e : Background.PolicyLink)
  (found : list Background.PolicyLink) : bool :=
  existsb (fun existing =>
             str_eqb (Background.href existing) (Background.href e)
             && str_eqb (Background.text existing) (Background.text e))
          found.

(** How many entries the link can still add: one if its text can still
    change (an indicator can still be appended), one if its entry is not
    listed yet. *)
Definition slack (st : list Background.PolicyLink * list nat) (i : nat)
  (link : Element.t) : nat :=
  (if blockedNow (snd st) i link then 0 else 1)
  + (if listed (entryNow (snd st) i link) (fst st) then 0 else 1).

(** Some policy phrase matches the link as the page shows it. *)
Definition matchesSomePhrase (link : Element.t) : bool :=
  existsb (Background.isMatch
             (trim (toLowerCase (Element.textContent link)))
             (toLowerCase (Element.href link))
             (toLowerCase (Background.attribute (Element.aria_label link)))
             (toLowerCase (Background.attribute (Element.title link))))
          Background.policyKeywords.

(** A link inside an element that already holds an indicator. *)
Definition markedLink (i : nat) (text url : jsstring) : Element.t :=
  {| Element.textContent := text;
     Element.href := url;
     Element.aria_label := None;
     Element.title := None;
     Element.ownIndicator := false;
     Element.parentIndicator := true;
     Element.parentLinks := [i] |}.

(** What an entry can be: its [href] is the URL of a link of the page, and
    its [text] is the trimmed text of that link, as it was or with the
    indicator at its end. *)
Definition fromLink (links : list Element.t) (e : Background.PolicyLink)
  : Prop :=
  exists link,
    In link links
    /\ Background.href e = Element.href link
    /\ (Background.text e = trim (Element.textContent link)
        \/ Background.text e
           = trim (Element.textContent link ++ Background.indicatorText)).

(** A link to which the scan may add an indicator: neither the link nor
    its parent holds one when the scan starts, and a policy phrase matches
    the link. *)
Definition mayBeMarked (link : Element.t) : Prop :=
  Element.ownIndicator link = false
  /\ Element.parentIndicator link = false
  /\ matchesSomePhrase link = true.

(** The links marked so far are distinct, come before position [a], and
    each may be marked. *)
Definition marksWellFormed (links : list Element.t) (a : nat)
  (marked : list nat) : Prop :=
  NoDup marked
  /\ forall j, In j marked ->
               (j < a)%nat
               /\ exists link, nth_error links j = Some link
                               /\ mayBeMarked link.

(** An entry whose [text] is the trimmed text of a link of the page, with
    that link's URL. *)
Definition plainEntry (links : list Element.t) (e : Background.PolicyLink)
  : Prop :=
  exists link,
    In link links
    /\ Background.href e = Element.href link
    /\ Background.text e = trim (Element.textContent link).

(** A browser with nothing stored, no badge and no notification. *)
Definition freshBrowser : Worker.Browser :=
  {| Worker.storage := stdpp.base.empty;
     Worker.badgeText := stdpp.base.empty;
     Worker.badgeBackgroundColor := stdpp.base.empty;
     Worker.notifications := [] |}.

(** A visit of a page that goes well: the injected function returns the
    report of the page and the URL has the given host. *)
Definition visitOf (page : Background.Page) (host : jsstring) (now : N)
  : Worker.Visit :=
  {| Worker.executeScript :=
       Popup.Resolved [Some (Background.detectPolicyContent page)];
     Worker.URL_hostname := Popup.Resolved host;
     Worker.Date_now := now |}.

(** The indicator shows a verdict: "Safe" or "Risky", with its class. *)
Definition settled (d : PopupPage.Doc) : Prop :=
  (Popup.riskLevel_textContent (PopupPage.world d) = lit "Safe"
   /\ Popup.riskLevel_className (PopupPage.world d) = lit "risk-safe")
  \/ (Popup.riskLevel_textContent (PopupPage.world d) = lit "Risky"
      /\ Popup.riskLevel_className (PopupPage.world d) = lit "risk-risky").

(** What the popup receives when the worker replies. *)
Definition replyOf (r : Worker.Reply) : option Worker.Stored :=
  match r with
  | Worker.pageAnalysis stored => stored
  | _ => None
  end.

(** The popup's document when it opens. *)
Definition initialDoc : PopupPage.Doc :=
  {| PopupPage.world :=
       {| Popup.alerts := [];
          Popup.summary_textContent := [];
          Popup.keyPoints_risks := [];
          Popup.keyPoints_positives := [];
          Popup.results_shown := false;
          Popup.riskLevel_textContent := lit "Analyzing...";
          Popup.riskLevel_className := lit "risk-analyzing";
          Popup.riskDescription_textContent := [];
          Popup.analyzeButton_disabled := false;
          Popup.analyzeButton_textContent := lit "Analyze Policy";
          Popup.calls := [] |};
     PopupPage.policyLinks := [];
     PopupPage.statusBadges := [];
     PopupPage.injected := [] |}.

(** A browser in which nothing works: no tab query, no message, no
    injection, no URL. *)
Definition brokenChrome : PopupPage.Chrome :=
  {| PopupPage.tabs_query := Popup.Rejected;
     PopupPage.runtime_sendMessage := fun _ => Popup.Rejected;
     PopupPage.scripting_executeScript := fun _ => Popup.Rejected;
     PopupPage.URL_hostname := fun _ => Popup.Rejected |}.

(** A browser with one tab, number 7, whose worker holds nothing for it,
    and in which the injected function returns what it finds on [page]. *)
Definition chromeOn (page : Background.Page) : PopupPage.Chrome :=
  {| PopupPage.tabs_query :=
       Popup.Resolved
         [ {| PopupPage.id := 7;
              PopupPage.url := Some (Background.location_href page) |} ];
     PopupPage.runtime_sendMessage := fun _ => Popup.Resolved None;
     PopupPage.scripting_executeScript :=
       fun _ => Popup.Resolved [Some (PopupPage.realTimeScan page)];
     PopupPage.URL_hostname :=
       fun _ => Popup.Resolved (Background.location_hostname page) |}.

(** A [window.ai] with a summarizer only. *)
Definition summarizerOnly : PopupPage.WindowAI :=
  {| PopupPage.core :=
       {| Popup.summarizer := Some (constantProvider (lit "Condensed."));
          Popup.writer := None;
          Popup.rewriter := None |};
     PopupPage.translator := false;
     PopupPage.proofreader := false |}.

(** A piece of a split text that is a word: not empty, and without white
    space. *)
Definition isWord (piece : jsstring) : Prop :=
  piece <> [] /\ forallb (fun c => negb (isWhiteSpace c)) piece = true.

(** A text that does not end with white space. *)
Definition endsSolid (s : jsstring) : Prop :=
  match rev s with
  | c :: _ => isWhiteSpace c = false
  | [] => True
  end.

(** The visit of a tab carries the outcome of the injected function: its
    report as the value of the first frame, or, when the function threw, no
    value for the worker to use (a rejected injection, no frame, or a frame
    without a value). *)
Definition carries (v : Worker.Visit)
  (outcome : Popup.Completion Background.Report) : Prop :=
  match outcome with
  | Popup.Resolved report =>
      Worker.executeScript v = Popup.Resolved [Some report]
  | Popup.Rejected =>
      forall pd rest,
        Worker.executeScript v <> Popup.Resolved (Some pd :: rest)
  end.

(** Some policy phrase or risk phrase of the worker occurs in the text. *)
Definition hasPhrase (text : jsstring) : Prop :=
  exists k, In k (Background.policyKeywords ++ Background.riskyKeywords)
            /\ Contains (toLowerCase text) (toLowerCase k).

(** [busyPage] as a document: a body and six HTML anchors. *)
Definition busyDocument : Injection.Document :=
  {| Injection.body := Some (Background.innerText busyPage);
     Injection.anchors := map Injection.htmlAnchor (Background.links busyPage);
     Injection.location_hostname := Background.location_hostname busyPage;
     Injection.location_href := Background.location_href busyPage |}.

(** A document whose text has a risk phrase and whose only link is an SVG
    anchor. *)
Definition svgDocument : Injection.Document :=
  {| Injection.body := Some (lit "We sell your data.");
     Injection.anchors := [Injection.svgAnchor];
     Injection.location_hostname := lit "example.com";
     Injection.location_href := lit "https://example.com/" |}.

(** A document with the given text and no link. *)
Definition textDocument (text : jsstring) : Injection.Document :=
  {| Injection.body := Some text;
     Injection.anchors := [];
     Injection.location_hostname := lit "example.com";
     Injection.location_href := lit "https://example.com/" |}.

(** A visit in which the injected function threw: the frame has no value. *)
Definition failedVisit (host : jsstring) (now : N) : Worker.Visit :=
  {| Worker.executeScript := Popup.Resolved [None];
     Worker.URL_hostname := Popup.Resolved host;
     Worker.Date_now := now |}.

(** The popup as it is when it opens. *)
Definition initialWorld : Popup.World :=
  {| Popup.alerts := [];
     Popup.summary_textContent := [];
     Popup.keyPoints_risks := [];
     Popup.keyPoints_positives := [];
     Popup.results_shown := false;
     Popup.riskLevel_textContent := lit "Analyzing...";
     Popup.riskLevel_className := lit "risk-analyzing";
     Popup.riskDescription_textContent := [];
     Popup.analyzeButton_disabled := false;
     Popup.analyzeButton_textContent := lit "Analyze Policy";
     Popup.calls := [] |}.

(** The sentence of the specification's first scenario. *)
Definition scenarioText : jsstring :=
  lit "This Privacy Policy explains that we may sell your data to third parties without notice.".

(* ------------------------------------------------------------------ *)
(** ** Facts about the string methods *)

Section StringFacts.

Lemma str_eqb_eq (a b : jsstring) : str_eqb a b = true <-> a = b.
Proof.
  revert b; induction a as [|x a IH]; intros [|y b]; simpl;
    try (split; [discriminate | discriminate]); [tauto|].
  rewrite andb_true_iff, N.eqb_eq, IH.
  split; [intros [-> ->]; reflexivity | intros H; inversion H; auto].
Qed.

Lemma str_eqb_refl (a : jsstring) : str_eqb a a = true.
Proof. apply str_eqb_eq; reflexivity. Qed.

Lemma startsWith_Prefix (s k : jsstring) :
  startsWith s k = true <-> Prefix k s.
Proof.
  revert s; induction k as [|a k IH]; intros s.
  - split; [intros _; exists s; reflexivity | destruct s; reflexivity].
  - destruct s as [|b s]; simpl.
    + split; [discriminate | intros [post H]; discriminate].
    + rewrite andb_true_iff, N.eqb_eq, IH. split.
      * intros [-> [post ->]]. exists post; reflexivity.
      * intros [post H]. simpl in H. inversion H; subst.
        split; [reflexivity | exists post; reflexivity].
Qed.

Lemma includes_Contains (s k : jsstring) :
  includes s k = true <-> Contains s k.
Proof.
  induction s as [|c s IH].
  - cbn [includes]. rewrite orb_false_r, startsWith_Prefix. split.
    + intros [post H]. exists [], post. exact H.
    + intros [pre [post H]]. destruct pre; [|discriminate].
      exists post. exact H.
  - cbn [includes]. rewrite orb_true_iff, startsWith_Prefix, IH. split.
    + intros [[post H] | [pre [post H]]].
      * exists [], post. exact H.
      * exists (c :: pre), post. rewrite H. reflexivity.
    + intros [[|d pre] [post H]].
      * left. exists post. exact H.
      * right. simpl in H. inversion H. exists pre, post. reflexivity.
Qed.

Lemma endsWith_Suffix (s k : jsstring) :
  endsWith s k = true <-> Suffix k s.
Proof.
  unfold endsWith, Suffix. destruct (Nat.leb_spec (length k) (length s)) as [Hle|Hlt].
  - rewrite str_eqb_eq. split.
    + intros H. exists (firstn (length s - length k) s).
      rewrite <- (firstn_skipn (length s - length k) s) at 1.
      rewrite H. reflexivity.
    + intros [pre ->]. rewrite length_app.
      replace (length pre + length k - length k)%nat with (length pre + 0)%nat by lia.
      rewrite skipn_app, Nat.add_0_r, skipn_all.
      replace (length pre - length pre)%nat with 0%nat by lia. reflexivity.
  - split; [discriminate|]. intros [pre ->]. rewrite length_app in Hlt. lia.
Qed.



(** [trimStart] removes a white-space prefix and nothing else. *)
Lemma trimStart_split (s : jsstring) :
  exists ws, s = ws ++ trimStart s /\ forallb isWhiteSpace ws = true.
Proof.
  induction s as [|c s [ws [H1 H2]]].
  - exists []. auto.
  - simpl. destruct (isWhiteSpace c) eqn:E.
    + exists (c :: ws). simpl. rewrite E, H2, <- H1. auto.
    + exists []. auto.
Qed.

Lemma forallb_rev {A} (f : A -> bool) (l : list A) :
  forallb f (rev l) = forallb f l.
Proof.
  induction l as [|a l IH]; simpl; [reflexivity|].
  rewrite forallb_app, IH. simpl. rewrite andb_true_r. apply andb_comm.
Qed.

Lemma trimEnd_split (s : jsstring) :
  exists ws, s = trimEnd s ++ ws /\ forallb isWhiteSpace ws = true.
Proof.
  unfold trimEnd. destruct (trimStart_split (rev s)) as [ws [H1 H2]].
  exists (rev ws). split.
  - rewrite <- rev_app_distr, <- H1, rev_involutive. reflexivity.
  - rewrite forallb_rev. exact H2.
Qed.


End StringFacts.

(* ------------------------------------------------------------------ *)
(** ** The risk scorer *)

Section RiskScorer.

Import Popup.
Local Open Scope Q_scope.

Variable text : jsstring.

Lemma count_snoc (l : list jsstring) (k : jsstring) :
  count (l ++ [k]) == count l + 1.
Proof.
  unfold count. rewrite length_app. simpl length.
  rewrite Nat2Z.inj_add, inject_Z_plus. reflexivity.
Qed.

(** The first loop adds one per matched phrase and collects the phrases. *)
Lemma riskStep_fold (keywords : list jsstring) (q : Q) (acc : list jsstring) :
  snd (fold_left (riskStep text) keywords (q, acc)) = acc ++ matched keywords text
  /\ fst (fold_left (riskStep text) keywords (q, acc))
     == q + count (matched keywords text).
Proof.
  revert q acc. induction keywords as [|k ks IH]; intros q acc.
  - simpl. rewrite app_nil_r. split; [reflexivity|]. unfold count; simpl. ring.
  - cbn [fold_left matched filter]. unfold riskStep at 2 4.
    fold (matched ks text).
    destruct (includes (toLowerCase text) (toLowerCase k)).
    + destruct (IH (q + 1) (acc ++ [k])) as [H1 H2]. split.
      * rewrite H1, <- app_assoc. reflexivity.
      * rewrite H2. change (k :: matched ks text) with ([k] ++ matched ks text).
        unfold count. rewrite length_app. simpl length.
        rewrite Nat2Z.inj_add, inject_Z_plus. simpl. ring.
    + apply IH.
Qed.

(** The second loop takes a half off per matched phrase. *)
Lemma positiveStep_fold (keywords : list jsstring) (q : Q) (acc : list jsstring) :
  snd (fold_left (positiveStep text) keywords (q, acc))
  = acc ++ matched keywords text
  /\ fst (fold_left (positiveStep text) keywords (q, acc))
     == q - (1 # 2) * count (matched keywords text).
Proof.
  revert q acc. induction keywords as [|k ks IH]; intros q acc.
  - simpl. rewrite app_nil_r. split; [reflexivity|]. unfold count; simpl. ring.
  - cbn [fold_left matched filter]. unfold positiveStep at 2 4.
    fold (matched ks text).
    destruct (includes (toLowerCase text) (toLowerCase k)).
    + destruct (IH (q - (1 # 2)) (acc ++ [k])) as [H1 H2]. split.
      * rewrite H1, <- app_assoc. reflexivity.
      * rewrite H2. change (k :: matched ks text) with ([k] ++ matched ks text).
        unfold count. rewrite length_app. simpl length.
        rewrite Nat2Z.inj_add, inject_Z_plus. simpl. ring.
    + apply IH.
Qed.

(** The fields of the returned object, read off the two loops. *)
Lemma analyzeRiskFactors_fields :
  let r := analyzeRiskFactors text in
  foundRisks r = matched riskKeywords text
  /\ foundPositives r = matched positiveKeywords text
  /\ riskScore r == count (matched riskKeywords text)
                    - (1 # 2) * count (matched positiveKeywords text)
  /\ level r = (if Qle_bool 1 (riskScore r) then risky else safe)
  /\ description r =
       (if Qle_bool 3 (riskScore r)
        then lit "Multiple risk factors detected. Review carefully before accepting."
        else if Qle_bool 1 (riskScore r)
        then lit "Some concerning terms found. Consider the implications."
        else lit "No major red flags detected. Appears to be standard terms.").
Proof.
  unfold analyzeRiskFactors.
  destruct (riskStep_fold riskKeywords 0 []) as [R1 R2].
  destruct (fold_left (riskStep text) riskKeywords (0, [])) as [q1 fr].
  destruct (positiveStep_fold positiveKeywords q1 []) as [P1 P2].
  destruct (fold_left (positiveStep text) positiveKeywords (q1, [])) as [q fp].
  cbn [fst snd app] in *.
  assert (Hq : q == count (matched riskKeywords text)
                    - (1 # 2) * count (matched positiveKeywords text)).
  { rewrite P2, R2. ring. }
  destruct (Qle_bool 3 q) eqn:E3.
  - assert (E1 : Qle_bool 1 q = true).
    { apply Qle_bool_iff. apply Qle_bool_iff in E3.
      apply Qle_trans with 3; [discriminate | exact E3]. }
    cbv zeta. cbn [riskScore level description foundRisks foundPositives].
    rewrite E3, E1. auto.
  - destruct (Qle_bool 1 q) eqn:E1; cbv zeta;
      cbn [riskScore level description foundRisks foundPositives];
      rewrite E3, E1; auto.
Qed.

End RiskScorer.

Section RiskScorerClaims.

Import Popup.
Local Open Scope Q_scope.

Lemma matched_In (keywords : list jsstring) (text k : jsstring) :
  In k (matched keywords text)
  <-> In k keywords /\ Contains (toLowerCase text) (toLowerCase k).
Proof.
  unfold matched. rewrite filter_In, includes_Contains. reflexivity.
Qed.

Lemma matched_NoDup (keywords : list jsstring) (text : jsstring) :
  NoDup keywords -> NoDup (matched keywords text).
Proof. intros H. apply NoDup_filter. exact H. Qed.

Lemma concrete_NoDup (l : list jsstring) :
  nodup (list_eq_dec N.eq_dec) l = l -> NoDup l.
Proof. intros E. rewrite <- E. apply NoDup_nodup. Qed.

Lemma riskKeywords_NoDup : NoDup riskKeywords.
Proof. apply concrete_NoDup. vm_compute. reflexivity. Qed.

Lemma positiveKeywords_NoDup : NoDup positiveKeywords.
Proof. apply concrete_NoDup. vm_compute. reflexivity. Qed.

(** C2, as the code has it: the level is risky exactly when the score is at
    least 1 (and safe exactly below 1), and the description is
    "Multiple risk factors detected. Review carefully before accepting."
    from 3 on, "Some concerning terms found. Consider the implications."
    from 1 up to 3, and "No major red flags detected. Appears to be standard
    terms." below 1. *)
Theorem level_and_description_by_score (text : jsstring) :
  let r := analyzeRiskFactors text in
  (level r = risky <-> 1 <= riskScore r)
  /\ (level r = safe <-> riskScore r < 1)
  /\ (3 <= riskScore r ->
      description r =
      lit "Multiple risk factors detected. Review carefully before accepting.")
  /\ (1 <= riskScore r -> riskScore r < 3 ->
      description r =
      lit "Some concerning terms found. Consider the implications.")
  /\ (riskScore r < 1 ->
      description r =
      lit "No major red flags detected. Appears to be standard terms.").
Proof.
  destruct (analyzeRiskFactors_fields text) as (_ & _ & _ & Hl & Hd).
  cbv zeta. rewrite Hl, Hd. clear Hl Hd.
  set (q := riskScore (analyzeRiskFactors text)).
  destruct (Qle_bool 1 q) eqn:E1.
  - apply Qle_bool_iff in E1.
    repeat split; try discriminate; try tauto.
    + intros H. exfalso. exact (Qlt_not_le _ _ H E1).
    + intros H3. apply Qle_bool_iff in H3. rewrite H3. reflexivity.
    + intros _ H3. destruct (Qle_bool 3 q) eqn:E3; [|reflexivity].
      apply Qle_bool_iff in E3. exfalso. exact (Qlt_not_le _ _ H3 E3).
    + intros H. exfalso. exact (Qlt_not_le _ _ H E1).
  - assert (N1 : ~ 1 <= q).
    { intros H. apply Qle_bool_iff in H. congruence. }
    assert (L1 : q < 1) by (apply Qnot_le_lt; exact N1).
    assert (E3 : Qle_bool 3 q = false).
    { destruct (Qle_bool 3 q) eqn:E3; [|reflexivity].
      apply Qle_bool_iff in E3. exfalso. apply N1.
      apply Qle_trans with 3; [discriminate | exact E3]. }
    rewrite E3.
    repeat split; try discriminate; try tauto.
    + intros H. exfalso. apply N1.
      apply Qle_trans with 3; [discriminate | exact H].
Qed.

(** The scenario sentence scores 3 and gets the first description. *)
Lemma level_and_description_by_score_witness :
  description (analyzeRiskFactors scenarioText) =
  lit "Multiple risk factors detected. Review carefully before accepting."
  /\ level (analyzeRiskFactors (lit "we sell your data")) = risky
  /\ description (analyzeRiskFactors (lit "we sell your data")) =
     lit "Some concerning terms found. Consider the implications."
  /\ description (analyzeRiskFactors (lit "nothing to see")) =
     lit "No major red flags detected. Appears to be standard terms.".
Proof.
  split; [|split; [|split]].
  - apply (proj1 (proj2 (proj2 (level_and_description_by_score scenarioText)))).
    vm_compute. discriminate.
  - apply (proj1 (level_and_description_by_score (lit "we sell your data"))).
    vm_compute. discriminate.
  - apply (proj1 (proj2 (proj2 (proj2
             (level_and_description_by_score (lit "we sell your data")))))).
    + vm_compute. discriminate.
    + vm_compute. reflexivity.
  - apply (proj2 (proj2 (proj2 (proj2
             (level_and_description_by_score (lit "nothing to see")))))).
    vm_compute. reflexivity.
Defined.

(** C2 as the specification words it fails: with a score of 3 the
    description is not the string "multiple risk factors, review carefully". *)
Lemma description_is_not_the_spec_wording :
  3 <= riskScore (analyzeRiskFactors scenarioText)
  /\ description (analyzeRiskFactors scenarioText)
     <> lit "multiple risk factors, review carefully".
Proof. split; vm_compute; discriminate. Qed.

(** C3: the score is the number of risk phrases that occur in the text
    (without regard to case) minus half the number of positive phrases that
    occur; the phrases of each list are distinct; nothing clamps the score:
    one risk phrase and one positive phrase give exactly 0.5, and a text
    with positive phrases only scores below zero. *)
Theorem riskScore_counts_matches :
  (forall text,
      riskScore (analyzeRiskFactors text)
      == count (matched riskKeywords text)
         - (1 # 2) * count (matched positiveKeywords text))
  /\ (forall text,
         foundRisks (analyzeRiskFactors text) = matched riskKeywords text
         /\ foundPositives (analyzeRiskFactors text)
            = matched positiveKeywords text)
  /\ (forall keywords text k,
         In k (matched keywords text)
         <-> In k keywords /\ Contains (toLowerCase text) (toLowerCase k))
  /\ NoDup riskKeywords /\ NoDup positiveKeywords
  /\ riskScore (analyzeRiskFactors (lit "We sell your data, but it is encrypted."))
     == 1 # 2
  /\ riskScore (analyzeRiskFactors (lit "Encrypted and secure.")) == - (1)
  /\ riskScore (analyzeRiskFactors (lit "Encrypted and secure.")) < 0.
Proof.
  split; [|split; [|split; [|split; [|split; [|split; [|split]]]]]].
  - intros text. apply (analyzeRiskFactors_fields text).
  - intros text. destruct (analyzeRiskFactors_fields text) as (H1 & H2 & _).
    split; assumption.
  - exact matched_In.
  - exact riskKeywords_NoDup.
  - exact positiveKeywords_NoDup.
  - vm_compute. reflexivity.
  - vm_compute. reflexivity.
  - vm_compute. reflexivity.
Qed.

End RiskScorerClaims.

(* ------------------------------------------------------------------ *)
(** ** The summary pipeline *)

Section SummaryPipeline.

Import Popup.

Variable window_ai : option AI.

Lemma or_else_nonempty (a b : jsstring) : b <> [] -> or_else a b <> [].
Proof. unfold or_else. destruct a; simpl; [auto | discriminate]. Qed.

Lemma or_else_truthy (a b : jsstring) : a <> [] -> or_else a b = a.
Proof. unfold or_else. destruct a; simpl; [congruence | reflexivity]. Qed.

Lemma heuristicSummary_nonempty (text : jsstring) : heuristicSummary text <> [].
Proof. unfold heuristicSummary. cbn [lit String.list_ascii_of_string map app]. discriminate. Qed.

(** What the summary element shows afterwards, and which calls were made,
    in terms of the three blocks. *)
Lemma analyzePolicyText_stages (text : jsstring) (w : World) :
  let c := condense window_ai text w in
  let r := reframe window_ai (fst c) (snd c) in
  let p := polish window_ai (fst r) (snd r) in
  let w' := exec (analyzePolicyText window_ai text) w in
  summary_textContent w'
  = or_else (fst p) (or_else (fst c) (heuristicSummary text))
  /\ calls w' = calls (snd p).
Proof.
  cbv zeta. unfold analyzePolicyText, exec, bind.
  destruct (condense window_ai text w) as [s w1].
  cbn [fst snd].
  destruct (reframe window_ai s w1) as [e0 w2].
  cbn [fst snd].
  destruct (polish window_ai e0 w2) as [e w3].
  split; reflexivity.
Qed.

(** The last alternative of the final [||] chain is never empty, so
    neither is the summary shown. *)
Lemma summary_shown_nonempty (text : jsstring) (w : World) :
  summary_textContent (exec (analyzePolicyText window_ai text) w) <> [].
Proof.
  destruct (analyzePolicyText_stages text w) as [Hs _].
  cbv zeta in Hs. rewrite Hs.
  apply or_else_nonempty, or_else_nonempty, heuristicSummary_nonempty.
Qed.

(** With no summary to work on, the Writer block does nothing. *)
Lemma reframe_empty (w : World) : reframe window_ai [] w = ([], w).
Proof. unfold reframe. destruct (provider window_ai writer); reflexivity. Qed.

(** With nothing to polish, the Rewriter block does nothing. *)
Lemma polish_empty (w : World) : polish window_ai [] w = ([], w).
Proof. unfold polish. destruct (provider window_ai rewriter); reflexivity. Qed.

Lemma condense_absent (text : jsstring) (w : World) :
  provider window_ai summarizer = None -> condense window_ai text w = ([], w).
Proof. intros H. unfold condense. rewrite H. reflexivity. Qed.

Lemma condense_unavailable (text : jsstring) (w : World) :
  unavailable (provider window_ai summarizer) ->
  fst (condense window_ai text w) = [].
Proof.
  unfold condense, unavailable, invoke, bind, ret.
  destruct (provider window_ai summarizer) as [p|]; [|reflexivity].
  destruct (create p) as [method|]; [|reflexivity].
  intros H. cbn. rewrite H. reflexivity.
Qed.

Lemma condense_resolved (text s : jsstring) (w : World) p method :
  provider window_ai summarizer = Some p ->
  create p = Resolved method ->
  method text = Resolved s ->
  condense window_ai text w = (s, snd (record (summarize text) w)).
Proof.
  intros Hp Hc Hm. unfold condense, invoke, bind, ret.
  rewrite Hp, Hc. cbn. rewrite Hm. reflexivity.
Qed.




End SummaryPipeline.

Section SummaryClaims.

Import Popup.

(** C1: whatever the text and the providers, the summary shown is not the
    empty string; and when each provider is absent or rejects, it is exactly
    "Policy contains N words. Analysis based on risk keyword detection."
    with N the number of pieces of [text.split(/\s+/)]. *)
Theorem summary_never_empty (window_ai : option AI) (text : jsstring)
  (w : World) :
  let w' := exec (analyzePolicyText window_ai text) w in
  summary_textContent w' <> []
  /\ (unavailable (provider window_ai summarizer) ->
      unavailable (provider window_ai writer) ->
      unavailable (provider window_ai rewriter) ->
      summary_textContent w'
      = lit "Policy contains " ++ ofNat (length (splitWs text))
        ++ lit " words. Analysis based on risk keyword detection.").
Proof.
  cbv zeta. split; [apply summary_shown_nonempty|].
  destruct (analyzePolicyText_stages window_ai text w) as [Hs _].
  cbv zeta in *. rewrite Hs. clear Hs.
  - intros H1 _ _.
    pose proof (condense_unavailable window_ai text w H1) as Hc.
    destruct (condense window_ai text w) as [s w1]. cbn [fst snd] in *.
    subst s. rewrite reframe_empty. cbn [fst snd]. rewrite polish_empty.
    reflexivity.
Qed.

(** With three rejecting providers the scenario sentence is summarised by
    the heuristic sentence, with its 15 words. *)
Lemma summary_never_empty_witness :
  summary_textContent
    (exec (analyzePolicyText (Some allFailing) scenarioText) initialWorld)
  = lit "Policy contains 15 words. Analysis based on risk keyword detection.".
Proof.
  apply (proj2 (summary_never_empty (Some allFailing) scenarioText initialWorld));
    simpl; intros; reflexivity.
Defined.




End SummaryClaims.

(* ------------------------------------------------------------------ *)
(** ** The Analyze button *)

Section ManualAnalysis.

Import Popup.

Variable window_ai : option AI.


End ManualAnalysis.



(* ------------------------------------------------------------------ *)
(** ** The page scanner: risk terms and truncation *)

Section PageScanner.

Import Background.

Lemma slice_0 {A} (n : nat) (a : list A) : slice 0 n a = firstn n a.
Proof. unfold slice. rewrite Nat.sub_0_r. reflexivity. Qed.

(** The loop over the risk phrases sets the flag when some phrase occurs and
    collects the phrases that occur. *)
Lemma riskyStep_fold (text : jsstring) (keywords : list jsstring)
  (b : bool) (acc : list jsstring) :
  fold_left (riskyStep (toLowerCase text)) keywords (b, acc)
  = (b || negb (Nat.eqb (length (matched keywords text)) 0),
     acc ++ matched keywords text).
Proof.
  revert b acc. induction keywords as [|k ks IH]; intros b acc.
  - simpl. rewrite orb_false_r, app_nil_r. reflexivity.
  - cbn [fold_left matched filter]. unfold riskyStep at 2.
    fold (matched ks text).
    destruct (includes (toLowerCase text) (toLowerCase k)).
    + rewrite IH, <- app_assoc. cbn [length Nat.eqb negb app].
      rewrite orb_true_r. reflexivity.
    + apply IH.
Qed.

(** The fields of the report that come from the page text and the links. *)
Lemma detectPolicyContent_fields (page : Page) :
  let r := detectPolicyContent page in
  hasRiskyKeywords r
  = negb (Nat.eqb (length (matched riskyKeywords (innerText page))) 0)
  /\ foundRiskyTerms r = firstn 5 (matched riskyKeywords (innerText page))
  /\ foundPolicyLinks r = firstn 5 (fst (scanLinks (links page))).
Proof.
  unfold detectPolicyContent, scanRisky. rewrite riskyStep_fold.
  destruct (scanLinks (links page)) as [found marked].
  cbv zeta. cbn [hasRiskyKeywords foundRiskyTerms foundPolicyLinks fst].
  rewrite !slice_0. auto.
Qed.

(** C6: the report holds at most 5 links and at most 5 risk terms; they are
    the first 5 of the links found and of the risk phrases found, in the
    order of the scan.  On [busyPage] six of each were found. *)
Theorem report_lists_are_truncated :
  (forall page,
      let r := detectPolicyContent page in
      (length (foundPolicyLinks r) <= 5)%nat
      /\ (length (foundRiskyTerms r) <= 5)%nat
      /\ foundPolicyLinks r = firstn 5 (fst (scanLinks (links page)))
      /\ foundRiskyTerms r = firstn 5 (matched riskyKeywords (innerText page)))
  /\ length (fst (scanLinks (links busyPage))) = 6%nat
  /\ length (matched riskyKeywords (innerText busyPage)) = 6%nat
  /\ length (foundPolicyLinks (detectPolicyContent busyPage)) = 5%nat
  /\ length (foundRiskyTerms (detectPolicyContent busyPage)) = 5%nat.
Proof.
  split.
  - intros page. destruct (detectPolicyContent_fields page) as (_ & H1 & H2).
    cbv zeta in *. rewrite H1, H2.
    repeat split; apply firstn_le_length.
  - repeat split; vm_compute; reflexivity.
Qed.

(** C10: the flag [hasRiskyKeywords] is set exactly when [foundRiskyTerms]
    is not empty. *)
Theorem hasRiskyKeywords_iff_terms_found (page : Page) :
  let r := detectPolicyContent page in
  hasRiskyKeywords r = true <-> foundRiskyTerms r <> [].
Proof.
  destruct (detectPolicyContent_fields page) as (H1 & H2 & _).
  cbv zeta in *. rewrite H1, H2.
  destruct (matched riskyKeywords (innerText page)) as [|k l]; simpl.
  - split; [discriminate | congruence].
  - split; [discriminate | reflexivity].
Qed.

Lemma filter_comm {A} (f g : A -> bool) (l : list A) :
  filter f (filter g l) = filter g (filter f l).
Proof.
  induction l as [|a l IH]; simpl; [reflexivity|].
  destruct (f a) eqn:Ef, (g a) eqn:Eg; simpl; rewrite ?Ef, ?Eg, IH; reflexivity.
Qed.

(** The page scanner's phrases are those of the popup that it kept, in the
    same order. *)
Lemma riskyKeywords_sublist :
  riskyKeywords = filter inRiskyKeywords Popup.riskKeywords.
Proof. vm_compute. reflexivity. Qed.

(** C9 as the specification words it fails: the two scripts hold different
    lists, and on the text "for marketing purposes" the popup finds a risk
    phrase where the page scanner finds none. *)
Lemma the_two_risk_lists_differ :
  riskyKeywords <> Popup.riskKeywords
  /\ Popup.foundRisks (Popup.analyzeRiskFactors (lit "for marketing purposes"))
     = [lit "marketing purposes"]
  /\ foundRiskyTerms (detectPolicyContent (textPage (lit "for marketing purposes")))
     = [].
Proof.
  split; [|split].
  - vm_compute. discriminate.
  - vm_compute. reflexivity.
  - vm_compute. reflexivity.
Qed.

(** C9, as the code has it: the page scanner's list holds 9 of the popup's
    14 risk phrases, in the same order; on the same text the page scanner
    finds exactly those of the popup's found risks that are in its own list,
    and reports the first 5 of them. *)
Theorem page_risk_terms_are_popup_risks_in_page_list :
  riskyKeywords = filter inRiskyKeywords Popup.riskKeywords
  /\ length riskyKeywords = 9%nat /\ length Popup.riskKeywords = 14%nat
  /\ (forall text,
         snd (scanRisky (toLowerCase text))
         = filter inRiskyKeywords
                  (Popup.foundRisks (Popup.analyzeRiskFactors text)))
  /\ (forall page,
         foundRiskyTerms (detectPolicyContent page)
         = firstn 5 (filter inRiskyKeywords
                       (Popup.foundRisks
                          (Popup.analyzeRiskFactors (innerText page))))).
Proof.
  assert (E : forall text,
             matched riskyKeywords text
             = filter inRiskyKeywords
                 (Popup.foundRisks (Popup.analyzeRiskFactors text))).
  { intros text.
    destruct (analyzeRiskFactors_fields text) as (H & _). cbv zeta in H.
    rewrite H. unfold matched at 1. rewrite riskyKeywords_sublist at 1.
    unfold matched. apply filter_comm. }
  split; [exact riskyKeywords_sublist|].
  split; [reflexivity|]. split; [reflexivity|]. split.
  - intros text. unfold scanRisky. rewrite riskyStep_fold. cbn [snd app].
    apply E.
  - intros page. destruct (detectPolicyContent_fields page) as (_ & H & _).
    cbv zeta in H. rewrite H, E. reflexivity.
Qed.

End PageScanner.

(* ------------------------------------------------------------------ *)
(** ** The link scanner *)

Section LinkScanner.

Import Background.



Lemma Contains_widen (x k ws1 ws2 : jsstring) :
  Contains x k -> Contains (ws1 ++ x ++ ws2) k.
Proof.
  intros [pre [post ->]]. exists (ws1 ++ pre), (post ++ ws2).
  rewrite <- !app_assoc. reflexivity.
Qed.











End LinkScanner.


Section LinkEntries.

Import Background.

Lemma NoDup_snoc {A} (l : list A) (a : A) :
  NoDup l -> ~ In a l -> NoDup (l ++ [a]).
Proof.
  induction l as [|b l IH]; intros Hnd Hin; simpl.
  - constructor; [intros [] | constructor].
  - inversion Hnd; subst. constructor.
    + rewrite in_app_iff. intros [H | [H | []]]; [auto|].
      subst. apply Hin. left. reflexivity.
    + apply IH; [assumption|]. intros H. apply Hin. right. exact H.
Qed.

(** An entry is pushed only when no entry with the same [href] and [text]
    is there already. *)
Lemma keywordStep_NoDup (i : nat) (link : Element.t)
  (linkText href ariaLabel title : jsstring)
  (st : list PolicyLink * list nat) (keyword : jsstring) :
  NoDup (fst st) ->
  NoDup (fst (keywordStep i link linkText href ariaLabel title st keyword)).
Proof.
  destruct st as [found marked]. unfold keywordStep. intros Hnd.
  destruct (isMatch linkText href ariaLabel title keyword); [|exact Hnd].
  match goal with |- context [negb ?b] => destruct b eqn:E end;
    cbn [negb fst]; [exact Hnd|].
  apply NoDup_snoc; [exact Hnd|]. intros Hin.
  assert (T : existsb
                (fun existing =>
                   str_eqb (Background.href existing) (Element.href link)
                   && str_eqb (text existing)
                        (trim (textContentNow marked i link))) found = true).
  { apply existsb_exists. eexists. split; [exact Hin|].
    cbn [Background.href text]. rewrite !str_eqb_refl. reflexivity. }
  cbn [fst] in E. congruence.
Qed.

Lemma linkStep_NoDup (st : list PolicyLink * list nat) (il : nat * Element.t) :
  NoDup (fst st) -> NoDup (fst (linkStep st il)).
Proof.
  destruct il as [i link]. unfold linkStep.
  generalize (trim (toLowerCase (textContentNow (snd st) i link))).
  intros linkText. revert st.
  induction policyKeywords as [|k ks IH]; intros st H; [exact H|].
  cbn [fold_left]. apply IH. apply keywordStep_NoDup. exact H.
Qed.

(** No two entries of the scan have the same [href] and [text]. *)
Lemma scanLinks_NoDup (links : list Element.t) : NoDup (fst (scanLinks links)).
Proof.
  unfold scanLinks.
  assert (G : forall l st, NoDup (fst st) -> NoDup (fst (fold_left linkStep l st))).
  { induction l as [|il l IH]; intros st H; [exact H|].
    cbn [fold_left]. apply IH. apply linkStep_NoDup. exact H. }
  apply G. constructor.
Qed.

(** C5, on the page whose only link reads "Terms of Service": the link
    matches "terms of service" and "terms"; the first match appends the
    indicator to the link, so the second match reads a different text and
    adds a second entry.  One link, two entries. *)
Theorem one_link_is_listed_twice :
  length (links termsPage) = 1%nat
  /\ fst (scanLinks (links termsPage))
     = [ {| text := lit "Terms of Service";
            href := lit "https://example.com/terms" |};
         {| text := lit "Terms of Service" ++ indicatorText;
            href := lit "https://example.com/terms" |} ]
  /\ length (foundPolicyLinks (detectPolicyContent termsPage)) = 2%nat.
Proof. split; [|split]; vm_compute; reflexivity. Qed.

End LinkEntries.

(** The other side of the validation: a text of at least 100 characters
    (trimmed) is analysed, and a summary is shown. *)
Lemma long_text_is_analysed (window_ai : option Popup.AI)
  (value : jsstring) (w : Popup.World) :
  (100 <= length (trim value))%nat ->
  let w' := Popup.exec (Popup.analyzeButton_click window_ai value) w in
  Popup.results_shown w' = true /\ Popup.summary_textContent w' <> [].
Proof.
  intros Hlen. cbv zeta. unfold Popup.analyzeButton_click.
  destruct (trim value) as [|c t] eqn:E; [simpl in Hlen; lia|].
  cbn [truthy negb]. apply Nat.ltb_ge in Hlen. rewrite Hlen.
  unfold Popup.exec, Popup.bind, Popup.setButton. cbv beta iota.
  match goal with
  | |- context [Popup.analyzePolicyText _ _ ?x] => set (w0 := x)
  end.
  pose proof (summary_shown_nonempty window_ai (c :: t) w0) as Hne.
  unfold Popup.exec in Hne.
  assert (Hr : Popup.results_shown
                 (snd (Popup.analyzePolicyText window_ai (c :: t) w0)) = true).
  { unfold Popup.analyzePolicyText, Popup.bind.
    destruct (Popup.condense window_ai (c :: t) w0) as [s w1].
    destruct (Popup.reframe window_ai s w1) as [e0 w2].
    destruct (Popup.polish window_ai e0 w2) as [e w3].
    reflexivity. }
  destruct (Popup.analyzePolicyText window_ai (c :: t) w0) as [u1 w1].
  cbn [snd Popup.results_shown Popup.summary_textContent] in *.
  split; assumption.
Qed.

(* ------------------------------------------------------------------ *)
(** ** More on the risk scorer *)

Section RiskScorerMore.

Import Popup.
Local Open Scope Q_scope.

Lemma matched_length (keywords : list jsstring) (text : jsstring) :
  (length (matched keywords text) <= length keywords)%nat.
Proof. unfold matched. apply filter_length_le. Qed.

Lemma toLowerCase_app (a b : jsstring) :
  toLowerCase (a ++ b) = toLowerCase a ++ toLowerCase b.
Proof. unfold toLowerCase. apply flat_map_app. Qed.

(** X1: The score is a whole number of halves, between -4.5 (all nine positive
    phrases and no risk phrase) and 14 (all fourteen risk phrases and no
    positive phrase). *)
Theorem riskScore_range (text : jsstring) :
  let r := analyzeRiskFactors text in
  - (9 # 2) <= riskScore r /\ riskScore r <= 14
  /\ (exists halves : Z, riskScore r == halves # 2)
  /\ (length (foundRisks r) <= 14)%nat
  /\ (length (foundPositives r) <= 9)%nat.
Proof.
  destruct (analyzeRiskFactors_fields text) as (H1 & H2 & H3 & _).
  cbv zeta in *. rewrite H1, H2.
  pose proof (matched_length riskKeywords text) as L1.
  pose proof (matched_length positiveKeywords text) as L2.
  change (length riskKeywords) with 14%nat in L1.
  change (length positiveKeywords) with 9%nat in L2.
  unfold count in H3.
  set (a := length (matched riskKeywords text)) in *.
  set (b := length (matched positiveKeywords text)) in *.
  assert (E : riskScore (analyzeRiskFactors text)
              == (2 * Z.of_nat a - Z.of_nat b) # 2).
  { rewrite H3. unfold Qeq, Qminus, Qplus, Qmult, Qopp, inject_Z. simpl. lia. }
  repeat split; try assumption.
  - rewrite E. unfold Qle. simpl. lia.
  - rewrite E. unfold Qle. simpl. lia.
  - eexists. exact E.
Qed.

(** X2: Only the lower-case form of the text matters: two texts that differ
    in case only get the same assessment. *)
Theorem analyzeRiskFactors_ignores_case (text1 text2 : jsstring) :
  toLowerCase text1 = toLowerCase text2 ->
  analyzeRiskFactors text1 = analyzeRiskFactors text2.
Proof.
  intros H. unfold analyzeRiskFactors.
  assert (R : riskStep text1 = riskStep text2).
  { unfold riskStep. rewrite H. reflexivity. }
  assert (P : positiveStep text1 = positiveStep text2).
  { unfold positiveStep. rewrite H. reflexivity. }
  rewrite R, P. reflexivity.
Qed.

(** X3: Text added before or after never hides a phrase: what was found is
    still found. *)
Theorem found_phrases_survive_context (before text after : jsstring) :
  incl (foundRisks (analyzeRiskFactors text))
       (foundRisks (analyzeRiskFactors (before ++ text ++ after)))
  /\ incl (foundPositives (analyzeRiskFactors text))
          (foundPositives (analyzeRiskFactors (before ++ text ++ after))).
Proof.
  destruct (analyzeRiskFactors_fields text) as (H1 & H2 & _).
  destruct (analyzeRiskFactors_fields (before ++ text ++ after))
    as (H3 & H4 & _).
  cbv zeta in *. rewrite H1, H2, H3, H4.
  split; intros k Hk; apply matched_In in Hk; apply matched_In;
    destruct Hk as [Hin Hc]; (split; [exact Hin|]);
    rewrite !toLowerCase_app; apply Contains_widen; exact Hc.
Qed.

(** X4: Without a risk phrase the level is safe; and when no positive phrase
    occurs, one risk phrase is enough for risky. *)
Theorem level_by_found_phrases (text : jsstring) :
  let r := analyzeRiskFactors text in
  (foundRisks r = [] -> level r = safe)
  /\ (foundPositives r = [] -> foundRisks r <> [] -> level r = risky).
Proof.
  destruct (analyzeRiskFactors_fields text) as (H1 & H2 & H3 & H4 & _).
  cbv zeta in *. rewrite H4, H1, H2. unfold count in H3.
  set (a := matched riskKeywords text) in *.
  set (b := matched positiveKeywords text) in *.
  set (q := riskScore (analyzeRiskFactors text)) in *.
  clearbody a b q. clear H1 H2 H4. split.
  - intros E. subst a. cbn [length] in H3.
    destruct (Qle_bool 1 q) eqn:B; [|reflexivity].
    apply Qle_bool_iff in B. rewrite H3 in B. exfalso.
    revert B. unfold Qle, Qminus, Qplus, Qmult, Qopp, inject_Z. simpl. lia.
  - intros E N. subst b. cbn [length] in H3.
    destruct a as [|k l]; [congruence|].
    destruct (Qle_bool 1 q) eqn:B; [reflexivity|].
    assert (B' : 1 <= q).
    { rewrite H3. unfold Qle, Qminus, Qplus, Qmult, Qopp, inject_Z.
      cbn [length]. rewrite Nat2Z.inj_succ. simpl. lia. }
    apply Qle_bool_iff in B'. congruence.
Qed.

End RiskScorerMore.

(** "SELL YOUR DATA" is assessed as "sell your data" is. *)
Lemma analyzeRiskFactors_ignores_case_witness :
  Popup.analyzeRiskFactors (lit "We SELL YOUR DATA")
  = Popup.analyzeRiskFactors (lit "we sell your data").
Proof.
  apply analyzeRiskFactors_ignores_case. vm_compute. reflexivity.
Defined.

(** A text with positive phrases only, and a text with one risk phrase and
    no positive phrase. *)
Lemma level_by_found_phrases_witness :
  Popup.level (Popup.analyzeRiskFactors (lit "Encrypted and secure."))
  = Popup.safe
  /\ Popup.level (Popup.analyzeRiskFactors (lit "we sell your data"))
     = Popup.risky.
Proof.
  split.
  - apply (proj1 (level_by_found_phrases (lit "Encrypted and secure."))).
    vm_compute. reflexivity.
  - apply (proj2 (level_by_found_phrases (lit "we sell your data"))).
    + vm_compute. reflexivity.
    + vm_compute. discriminate.
Defined.

(* ------------------------------------------------------------------ *)
(** ** More on the summary pipeline *)

Section PipelineMore.

Import Popup.

Variable window_ai : option AI.

Lemma setCalls_same (w : World) : setCalls (calls w) w = w.
Proof. destruct w; reflexivity. Qed.

(** [invoke] changes nothing but the list of calls, by at most one call. *)
Lemma invoke_trace (p : Provider) (call : jsstring -> ProviderCall)
  (input : jsstring) (w : World) :
  exists cs,
    snd (invoke p call input w) = setCalls (calls w ++ cs) w
    /\ (cs = [] \/ cs = [call input])
    /\ (cs = [] -> fst (invoke p call input w) = Rejected).
Proof.
  unfold invoke. destruct (create p) as [method|].
  - exists [call input]. split; [reflexivity|]. split; [auto | discriminate].
  - exists []. rewrite app_nil_r, setCalls_same. auto.
Qed.

Lemma condense_trace (text : jsstring) (w : World) :
  exists cs,
    snd (condense window_ai text w) = setCalls (calls w ++ cs) w
    /\ (cs = [] \/ cs = [summarize text])
    /\ (cs = [] -> fst (condense window_ai text w) = []).
Proof.
  unfold condense. destruct (provider window_ai summarizer) as [p|].
  - destruct (invoke_trace p summarize text w) as (cs & H1 & H2 & H3).
    exists cs. unfold bind.
    destruct (invoke p summarize text w) as [r w1]. cbn [fst snd] in *.
    destruct r as [s|]; cbn [ret fst snd]; repeat split; auto.
    intros E. specialize (H3 E). discriminate.
  - exists []. rewrite app_nil_r, setCalls_same. auto.
Qed.

Lemma reframe_trace (s : jsstring) (w : World) :
  exists cs,
    snd (reframe window_ai s w) = setCalls (calls w ++ cs) w
    /\ (cs = [] \/ cs = [write (writerPrompt s)])
    /\ (s = [] -> cs = [] /\ fst (reframe window_ai s w) = []).
Proof.
  unfold reframe. destruct (provider window_ai writer) as [p|].
  - destruct s as [|c s].
    + exists []. rewrite app_nil_r, setCalls_same. cbn. auto.
    + cbn [truthy].
      destruct (invoke_trace p write (writerPrompt (c :: s)) w)
        as (cs & H1 & H2 & _).
      exists cs. unfold bind.
      destruct (invoke p write (writerPrompt (c :: s)) w) as [r w1].
      cbn [fst snd] in *.
      destruct r as [e|]; cbn [ret fst snd]; repeat split; auto; discriminate.
  - exists []. rewrite app_nil_r, setCalls_same. cbn. auto.
Qed.

Lemma polish_trace (e : jsstring) (w : World) :
  exists cs,
    snd (polish window_ai e w) = setCalls (calls w ++ cs) w
    /\ (cs = [] \/ cs = [rewrite_ e])
    /\ (e = [] -> cs = []).
Proof.
  unfold polish. destruct (provider window_ai rewriter) as [p|].
  - destruct e as [|c e].
    + exists []. rewrite app_nil_r, setCalls_same. cbn. auto.
    + cbn [truthy].
      destruct (invoke_trace p rewrite_ (c :: e) w) as (cs & H1 & H2 & _).
      exists cs. unfold bind.
      destruct (invoke p rewrite_ (c :: e) w) as [r w1].
      cbn [fst snd] in *.
      destruct r as [e'|]; cbn [ret fst snd]; repeat split; auto; discriminate.
  - exists []. rewrite app_nil_r, setCalls_same. cbn. auto.
Qed.

(** The world after [analyzePolicyText]: the results and the indicator are
    written over a world that differs from the first one by the calls
    made. *)
Lemma analyzePolicyText_world (text : jsstring) (w : World) :
  exists (cs : list ProviderCall) (finalSummary : jsstring),
    exec (analyzePolicyText window_ai text) w
    = exec (updateRiskIndicator (level (analyzeRiskFactors text))
                                (description (analyzeRiskFactors text)))
        (exec (displayAnalysisResults finalSummary (analyzeRiskFactors text))
              (setCalls (calls w ++ cs) w)).
Proof.
  unfold analyzePolicyText, exec, bind.
  destruct (condense_trace text w) as (c1 & H1 & _).
  destruct (condense window_ai text w) as [s w1]. cbn [fst snd] in *.
  destruct (reframe_trace s w1) as (c2 & H2 & _).
  destruct (reframe window_ai s w1) as [e0 w2]. cbn [fst snd] in *.
  destruct (polish_trace e0 w2) as (c3 & H3 & _).
  destruct (polish window_ai e0 w2) as [e w3]. cbn [fst snd] in *.
  exists (c1 ++ c2 ++ c3), (or_else e (or_else s (heuristicSummary text))).
  subst w3 w2 w1. cbn [setCalls calls]. rewrite !app_assoc. reflexivity.
Qed.

(** X5: Each provider's method is called at most once in an analysis, in the
    order summarizer, writer, rewriter, and the writer and the rewriter
    only after the summarizer. *)
Theorem providers_called_once_in_order (text : jsstring) (w : World) :
  let w' := exec (analyzePolicyText window_ai text) w in
  exists sm wr rw,
    calls w' = calls w ++ sm ++ wr ++ rw
    /\ (sm = [] \/ sm = [summarize text])
    /\ (wr = [] \/ exists s, wr = [write (writerPrompt s)])
    /\ (rw = [] \/ exists e, rw = [rewrite_ e])
    /\ (sm = [] -> wr = [] /\ rw = []).
Proof.
  cbv zeta.
  destruct (analyzePolicyText_stages window_ai text w) as [_ Hc].
  cbv zeta in Hc. rewrite Hc. clear Hc.
  destruct (condense_trace text w) as (c1 & H1 & A1 & B1).
  destruct (condense window_ai text w) as [s w1]. cbn [fst snd] in *.
  destruct (reframe_trace s w1) as (c2 & H2 & A2 & B2).
  destruct (reframe window_ai s w1) as [e0 w2]. cbn [fst snd] in *.
  destruct (polish_trace e0 w2) as (c3 & H3 & A3 & B3).
  destruct (polish window_ai e0 w2) as [e w3]. cbn [fst snd] in *.
  exists c1, c2, c3. subst w3 w2 w1. cbn [setCalls calls].
  rewrite <- !app_assoc. split; [reflexivity|].
  split; [exact A1|]. split; [destruct A2; eauto|].
  split; [destruct A3; eauto|].
  intros E. specialize (B1 E). subst s. destruct (B2 eq_refl) as [E2 E0].
  split; [exact E2|]. apply B3. exact E0.
Qed.

(** X6: Without a writer the rewriter is not used, even when it is there: the
    summarizer's text is shown as it is. *)
Theorem rewriter_unused_without_writer (text : jsstring) (w : World)
  (p : Provider) (method : jsstring -> Completion jsstring) (s : jsstring) :
  provider window_ai summarizer = Some p ->
  create p = Resolved method ->
  method text = Resolved s ->
  s <> [] ->
  provider window_ai writer = None ->
  let w' := exec (analyzePolicyText window_ai text) w in
  summary_textContent w' = s /\ calls w' = calls w ++ [summarize text].
Proof.
  intros Hp Hc Hm Hs Hw. cbv zeta.
  destruct (analyzePolicyText_stages window_ai text w) as [H1 H2].
  cbv zeta in *. rewrite H1, H2. clear H1 H2.
  rewrite (condense_resolved window_ai text w Hp Hc Hm). cbn [fst snd].
  unfold reframe. rewrite Hw. cbn [ret fst snd]. rewrite polish_empty.
  cbn [fst snd]. split; [|reflexivity].
  unfold or_else at 1. cbn [truthy]. apply or_else_truthy. exact Hs.
Qed.

(** X7: When the three providers answer, with non-empty texts from the
    summarizer and the writer, the summary is the rewriter's text; but an
    empty text from the rewriter brings back the summarizer's text, not the
    writer's. *)
Theorem summary_of_working_chain (text : jsstring) (w : World)
  (p1 p2 p3 : Provider) (m1 m2 m3 : jsstring -> Completion jsstring)
  (s1 s2 s3 : jsstring) :
  provider window_ai summarizer = Some p1 -> create p1 = Resolved m1 ->
  m1 text = Resolved s1 -> s1 <> [] ->
  provider window_ai writer = Some p2 -> create p2 = Resolved m2 ->
  m2 (writerPrompt s1) = Resolved s2 -> s2 <> [] ->
  provider window_ai rewriter = Some p3 -> create p3 = Resolved m3 ->
  m3 s2 = Resolved s3 ->
  let w' := exec (analyzePolicyText window_ai text) w in
  summary_textContent w' = (if truthy s3 then s3 else s1)
  /\ calls w'
     = calls w ++ [summarize text; write (writerPrompt s1); rewrite_ s2].
Proof.
  intros Hp1 Hc1 Hm1 Hs1 Hp2 Hc2 Hm2 Hs2 Hp3 Hc3 Hm3. cbv zeta.
  destruct (analyzePolicyText_stages window_ai text w) as [H1 H2].
  cbv zeta in *. rewrite H1, H2. clear H1 H2.
  rewrite (condense_resolved window_ai text w Hp1 Hc1 Hm1). cbn [fst snd].
  unfold reframe, polish, invoke, bind, ret. rewrite Hp2, Hc2, Hp3, Hc3.
  destruct s1 as [|a1 s1]; [congruence|]. cbn [truthy].
  cbn -[writerPrompt]. rewrite Hm2.
  destruct s2 as [|a2 s2]; [congruence|]. cbn -[writerPrompt].
  rewrite Hm3. cbn -[writerPrompt]. rewrite <- !app_assoc.
  split; [|reflexivity].
  unfold or_else. destruct s3; reflexivity.
Qed.

End PipelineMore.

(** A summarizer and a rewriter that work, and no writer. *)
Lemma rewriter_unused_without_writer_witness :
  let w' := Popup.exec (Popup.analyzePolicyText (Some noWriter) scenarioText)
                       initialWorld in
  Popup.summary_textContent w' = lit "Condensed."
  /\ Popup.calls w' = [Popup.summarize scenarioText].
Proof.
  apply (@rewriter_unused_without_writer (Some noWriter) scenarioText
           initialWorld (constantProvider (lit "Condensed."))
           (fun _ => Popup.Resolved (lit "Condensed.")) (lit "Condensed."));
    try reflexivity.
  discriminate.
Defined.

(** The three providers answer; once the rewriter gives "Polished.", once
    the empty string. *)
Lemma summary_of_working_chain_witness :
  Popup.summary_textContent
    (Popup.exec (Popup.analyzePolicyText (Some (workingChain (lit "Polished.")))
                                         scenarioText) initialWorld)
  = lit "Polished."
  /\ Popup.summary_textContent
       (Popup.exec (Popup.analyzePolicyText (Some (workingChain []))
                                            scenarioText) initialWorld)
     = lit "Condensed.".
Proof.
  split.
  - apply (@summary_of_working_chain (Some (workingChain (lit "Polished.")))
             scenarioText initialWorld
             (constantProvider (lit "Condensed."))
             (constantProvider (lit "Reframed."))
             (constantProvider (lit "Polished."))
             (fun _ => Popup.Resolved (lit "Condensed."))
             (fun _ => Popup.Resolved (lit "Reframed."))
             (fun _ => Popup.Resolved (lit "Polished."))
             (lit "Condensed.") (lit "Reframed.") (lit "Polished."));
      try reflexivity; discriminate.
  - apply (@summary_of_working_chain (Some (workingChain []))
             scenarioText initialWorld
             (constantProvider (lit "Condensed."))
             (constantProvider (lit "Reframed."))
             (constantProvider [])
             (fun _ => Popup.Resolved (lit "Condensed."))
             (fun _ => Popup.Resolved (lit "Reframed."))
             (fun _ => Popup.Resolved [])
             (lit "Condensed.") (lit "Reframed.") []);
      try reflexivity; discriminate.
Defined.

Section ClickMore.

Import Popup.

Lemma exec_bind {A B} (c : M A) (k : A -> M B) (w : World) :
  exec (bind c k) w = exec (k (fst (c w))) (exec c w).
Proof. unfold exec, bind. destruct (c w) as [a w1]. reflexivity. Qed.

(** The world after a click on a long enough text. *)
Lemma click_world (window_ai : option AI) (value : jsstring) (w : World) :
  (100 <= length (trim value))%nat ->
  exists (cs : list ProviderCall) (finalSummary : jsstring),
    exec (analyzeButton_click window_ai value) w
    = exec (setButton false (lit "Analyze Policy"))
        (exec (updateRiskIndicator
                 (level (analyzeRiskFactors (trim value)))
                 (description (analyzeRiskFactors (trim value))))
           (exec (displayAnalysisResults finalSummary
                    (analyzeRiskFactors (trim value)))
              (setCalls (calls w ++ cs)
                 (exec (setButton true (lit "Analyzing...")) w)))).
Proof.
  intros Hlen. unfold analyzeButton_click.
  destruct (trim value) as [|c t] eqn:E; [simpl in Hlen; lia|].
  cbn [truthy negb]. apply Nat.ltb_ge in Hlen. rewrite Hlen.
  rewrite !exec_bind.
  set (w0 := exec (setButton true (lit "Analyzing...")) w).
  destruct (analyzePolicyText_world window_ai (c :: t) w0) as (cs & fs & Hw).
  exists cs, fs. rewrite Hw. reflexivity.
Qed.

(** X8: After a click on a text of at least 100 characters (trimmed), the
    indicator says "Risky" with class "risk-risky" when the score of the
    trimmed text is at least 1 and "Safe" with class "risk-safe" otherwise,
    the description and the key points are those of the assessment, the
    button is enabled again under its first label, and no alert was shown. *)
Theorem click_shows_the_assessment (window_ai : option AI)
  (value : jsstring) (w : World) :
  (100 <= length (trim value))%nat ->
  let r := analyzeRiskFactors (trim value) in
  let w' := exec (analyzeButton_click window_ai value) w in
  ((1 <= riskScore r)%Q ->
   riskLevel_textContent w' = lit "Risky"
   /\ riskLevel_className w' = lit "risk-risky")
  /\ ((riskScore r < 1)%Q ->
      riskLevel_textContent w' = lit "Safe"
      /\ riskLevel_className w' = lit "risk-safe")
  /\ riskDescription_textContent w' = description r
  /\ keyPoints_risks w' = foundRisks r
  /\ keyPoints_positives w' = foundPositives r
  /\ analyzeButton_disabled w' = false
  /\ analyzeButton_textContent w' = lit "Analyze Policy"
  /\ alerts w' = alerts w.
Proof.
  intros Hlen. cbv zeta.
  destruct (click_world window_ai value w Hlen) as (cs & fs & Hw).
  rewrite Hw. clear Hw.
  destruct (analyzeRiskFactors_fields (trim value)) as (_ & _ & _ & Hl & _).
  cbv zeta in Hl.
  set (r := analyzeRiskFactors (trim value)) in *.
  cbn [setButton snd exec updateRiskIndicator displayAnalysisResults setCalls
       riskLevel_textContent riskLevel_className riskDescription_textContent
       keyPoints_risks keyPoints_positives analyzeButton_disabled
       analyzeButton_textContent alerts].
  rewrite Hl.
  destruct (Qle_bool 1 (riskScore r)) eqn:B.
  - split; [intros _; split; reflexivity|]. split.
    + intros L. apply Qle_bool_iff in B. exfalso. exact (Qlt_not_le _ _ L B).
    + repeat (split; [reflexivity|]). reflexivity.
  - split.
    + intros L. apply Qle_bool_iff in L. congruence.
    + split; [intros _; split; reflexivity|].
      repeat (split; [reflexivity|]). reflexivity.
Qed.

End ClickMore.

(** The long text has three risk phrases: "Risky". *)
Lemma click_shows_the_assessment_witness :
  let w' := Popup.exec (Popup.analyzeButton_click None longText) initialWorld in
  Popup.riskLevel_textContent w' = lit "Risky"
  /\ Popup.riskLevel_className w' = lit "risk-risky".
Proof.
  apply (proj1 (click_shows_the_assessment None longText initialWorld
                  ltac:(vm_compute; lia))).
  vm_compute. discriminate.
Defined.

(* ------------------------------------------------------------------ *)
(** ** The fallback analysis *)

Section Fallback.

Import Popup PopupPage.

Lemma Prefix_app (p s t : jsstring) : Prefix p s -> Prefix p (s ++ t).
Proof. intros [post ->]. exists (post ++ t). symmetry. apply app_assoc. Qed.

Lemma Suffix_app (k s t : jsstring) : Suffix k t -> Suffix k (s ++ t).
Proof. intros [pre ->]. exists (s ++ pre). apply app_assoc. Qed.

(** Two suffixes of one string: one is a suffix of the other. *)
Lemma Suffix_comparable (a b s : jsstring) :
  Suffix a s -> Suffix b s -> Suffix a b \/ Suffix b a.
Proof.
  intros [p1 H1] [p2 H2]. rewrite H1 in H2.
  apply app_eq_app in H2. destruct H2 as [l [[_ H] | [_ H]]].
  - left. exists l. exact H.
  - right. exists l. exact H.
Qed.

Lemma Suffix_clash (a b s : jsstring) :
  endsWith a b = false -> endsWith b a = false ->
  Suffix a s -> Suffix b s -> False.
Proof.
  intros E1 E2 Ha Hb.
  destruct (Suffix_comparable Ha Hb) as [H | H];
    apply endsWith_Suffix in H; congruence.
Qed.

(** X9: The fallback analysis carries the assessment of [analyzeRiskFactors];
    its summary starts with the count of words and closes with the sentence
    that goes with the level: "... appears to be standard terms." exactly
    when the level is safe, "... recommended." or "... identified." exactly
    when it is risky. *)
Theorem fallback_summary_agrees_with_level (text : jsstring) :
  let f := performFallbackAnalysis text in
  let r := analyzeRiskFactors text in
  fb_level f = level r
  /\ fb_riskScore f = riskScore r
  /\ fb_foundRisks f = foundRisks r
  /\ fb_foundPositives f = foundPositives r
  /\ Prefix (lit "Analysis of " ++ ofNat (length (splitWs text))
             ++ lit " words completed using keyword detection. ")
            (fb_summary f)
  /\ (fb_level f = safe
      <-> Suffix (lit ") - appears to be standard terms.") (fb_summary f))
  /\ (fb_level f = risky
      <-> Suffix (lit ") suggests careful review recommended.") (fb_summary f)
          \/ Suffix (lit ") - some concerns identified.") (fb_summary f)).
Proof.
  cbv zeta. unfold performFallbackAnalysis.
  cbn [fb_level fb_riskScore fb_foundRisks fb_foundPositives fb_summary].
  destruct (analyzeRiskFactors_fields text) as (_ & _ & _ & Hl & _).
  cbv zeta in Hl. rewrite Hl. clear Hl.
  set (r := analyzeRiskFactors text).
  set (base := lit "Analysis of " ++ ofNat (length (splitWs text))
               ++ lit " words completed using keyword detection. ").
  set (s1 := if (0 <? length (foundRisks r))%nat then _ else base).
  set (s2 := if (0 <? length (foundPositives r))%nat then _ else s1).
  assert (P2 : Prefix base s2).
  { assert (P1 : Prefix base s1).
    { unfold s1. destruct (0 <? length (foundRisks r))%nat.
      - exists (lit "Found " ++ ofNat (length (foundRisks r))
                ++ lit " potential risk factor(s). "). reflexivity.
      - exists []. symmetry. apply app_nil_r. }
    unfold s2. destruct (0 <? length (foundPositives r))%nat.
    - apply Prefix_app. exact P1.
    - exact P1. }
  clearbody s2. clear s1.
  set (n := numberToString (riskScore r)). clearbody n.
  set (high := lit ") suggests careful review recommended.").
  set (moderate := lit ") - some concerns identified.").
  set (low := lit ") - appears to be standard terms.").
  assert (S3 : Suffix high (s2 ++ lit "High risk score (" ++ n ++ high)).
  { apply Suffix_app, Suffix_app, Suffix_app. exists []. reflexivity. }
  assert (S1 : Suffix moderate (s2 ++ lit "Moderate risk score (" ++ n ++ moderate)).
  { apply Suffix_app, Suffix_app, Suffix_app. exists []. reflexivity. }
  assert (S0 : Suffix low (s2 ++ lit "Low risk score (" ++ n ++ low)).
  { apply Suffix_app, Suffix_app, Suffix_app. exists []. reflexivity. }
  assert (C1 : forall s, Suffix low s -> Suffix high s -> False).
  { intros s. apply Suffix_clash; vm_compute; reflexivity. }
  assert (C2 : forall s, Suffix low s -> Suffix moderate s -> False).
  { intros s. apply Suffix_clash; vm_compute; reflexivity. }
  repeat (split; [reflexivity|]).
  destruct (Qle_bool 3 (riskScore r)) eqn:E3.
  - assert (E1 : Qle_bool 1 (riskScore r) = true).
    { apply Qle_bool_iff. apply Qle_bool_iff in E3.
      apply Qle_trans with 3%Q; [discriminate | exact E3]. }
    rewrite E1. split; [apply Prefix_app; exact P2|]. split.
    + split; [discriminate|]. intros H. exfalso. exact (C1 _ H S3).
    + split; [intros _; left; exact S3 | reflexivity].
  - destruct (Qle_bool 1 (riskScore r)) eqn:E1.
    + split; [apply Prefix_app; exact P2|]. split.
      * split; [discriminate|]. intros H. exfalso. exact (C2 _ H S1).
      * split; [intros _; right; exact S1 | reflexivity].
    + split; [apply Prefix_app; exact P2|]. split.
      * split; [intros _; exact S0 | reflexivity].
      * split; [discriminate|]. intros [H | H]; exfalso.
        -- exact (C1 _ S0 H).
        -- exact (C2 _ S0 H).
Qed.

End Fallback.

(* ------------------------------------------------------------------ *)
(** ** More on the page scanner *)

Section PageFlags.

Import Background.

Lemma policyStep_fold (pageText : jsstring) (keywords : list jsstring)
  (b : bool) :
  fold_left (policyStep pageText) keywords b
  = b || existsb (fun k => includes pageText (toLowerCase k)) keywords.
Proof.
  revert b. induction keywords as [|k ks IH]; intros b; simpl.
  - rewrite orb_false_r. reflexivity.
  - rewrite IH. unfold policyStep.
    destruct (includes pageText (toLowerCase k)); simpl;
      [rewrite orb_true_r; reflexivity | reflexivity].
Qed.

Lemma detectPolicyContent_flags (page : Page) :
  let r := detectPolicyContent page in
  (hasPolicyContent r = true
   <-> exists k, In k policyKeywords
                 /\ Contains (toLowerCase (innerText page)) (toLowerCase k))
  /\ (hasRiskyKeywords r = true
      <-> exists k, In k riskyKeywords
                    /\ Contains (toLowerCase (innerText page)) (toLowerCase k)).
Proof.
  cbv zeta. split.
  - unfold detectPolicyContent.
    destruct (scanRisky (toLowerCase (innerText page))) as [hr fr].
    destruct (scanLinks (links page)) as [fl mk].
    cbn [hasPolicyContent]. rewrite policyStep_fold. cbn [orb].
    rewrite existsb_exists.
    split; intros [k [H1 H2]]; exists k; (split; [exact H1|]);
      apply includes_Contains; exact H2.
  - destruct (detectPolicyContent_fields page) as (F & _). cbv zeta in F.
    rewrite F. split.
    + intros E. destruct (matched riskyKeywords (innerText page)) as [|k l] eqn:M;
        [discriminate|].
      exists k. apply matched_In. rewrite M. left. reflexivity.
    + intros [k Hk]. apply matched_In in Hk.
      destruct (matched riskyKeywords (innerText page)); [destruct Hk|reflexivity].
Qed.

(** X10: Each flag of the report is set exactly when a phrase of its list occurs
    in the page text, without regard to case; the links play no part. *)
Theorem flags_follow_the_page_text (page : Page) :
  let r := detectPolicyContent page in
  (hasPolicyContent r = true
   <-> exists k, In k policyKeywords
                 /\ Contains (toLowerCase (innerText page)) (toLowerCase k))
  /\ (hasRiskyKeywords r = true
      <-> exists k, In k riskyKeywords
                    /\ Contains (toLowerCase (innerText page)) (toLowerCase k)).
Proof. exact (detectPolicyContent_flags page). Qed.

End PageFlags.

(* ------------------------------------------------------------------ *)
(** ** More on the link scanner *)

Section LinkScanSteps.

Import Background.

Lemma fold_left_invariant {A B} (f : A -> B -> A) (Inv : A -> Prop)
  (l : list B) (a : A) :
  (forall a b, In b l -> Inv a -> Inv (f a b)) -> Inv a ->
  Inv (fold_left f l a).
Proof.
  revert a. induction l as [|b l IH]; intros a Hstep Ha; [exact Ha|].
  cbn [fold_left]. apply IH.
  - intros a' b' Hb. apply Hstep. right. exact Hb.
  - apply Hstep; [left; reflexivity | exact Ha].
Qed.

Lemma mem_In (i : nat) (l : list nat) : mem i l = true <-> In i l.
Proof.
  unfold mem. rewrite existsb_exists. split.
  - intros [j [H E]]. apply Nat.eqb_eq in E. subst. exact H.
  - intros H. exists i. split; [exact H | apply Nat.eqb_refl].
Qed.

Lemma mem_snoc (i : nat) (l : list nat) : mem i (l ++ [i]) = true.
Proof. apply mem_In, in_or_app. right. left. reflexivity. Qed.

(** [addPolicyLinkIndicator] in terms of [blockedNow]. *)
Lemma addPolicyLinkIndicator_cases (marked : list nat) (i : nat)
  (link : Element.t) :
  addPolicyLinkIndicator marked i link
  = if blockedNow marked i link then marked else marked ++ [i].
Proof. reflexivity. Qed.

Lemma listed_snoc (e : PolicyLink) (found : list PolicyLink) :
  listed e (found ++ [e]) = true.
Proof.
  unfold listed. rewrite existsb_app. cbn [existsb].
  rewrite !str_eqb_refl. cbn. apply orb_true_r.
Qed.

(** A turn of the inner loop leaves the state alone, or the phrase matches,
    the entry of the link's present text was not listed, it is added, and
    [addPolicyLinkIndicator] is called. *)
Lemma keywordStep_cases (i : nat) (link : Element.t)
  (linkText href ariaLabel title : jsstring)
  (st : list PolicyLink * list nat) (keyword : jsstring) :
  let st' := keywordStep i link linkText href ariaLabel title st keyword in
  st' = st
  \/ (isMatch linkText href ariaLabel title keyword = true
      /\ listed (entryNow (snd st) i link) (fst st) = false
      /\ st' = (fst st ++ [entryNow (snd st) i link],
                addPolicyLinkIndicator (snd st) i link)).
Proof.
  cbv zeta. destruct st as [found marked]. unfold keywordStep.
  destruct (isMatch linkText href ariaLabel title keyword); [|left; reflexivity].
  change (existsb _ found) with (listed (entryNow marked i link) found).
  destruct (listed (entryNow marked i link) found) eqn:L; cbn [negb].
  - left. reflexivity.
  - right. cbn [fst snd]. rewrite L. auto.
Qed.

(** A turn of the inner loop never raises the number of entries plus the
    slack of the link. *)
Lemma keywordStep_slack (i : nat) (link : Element.t)
  (linkText href ariaLabel title : jsstring)
  (st : list PolicyLink * list nat) (keyword : jsstring) :
  let st' := keywordStep i link linkText href ariaLabel title st keyword in
  (length (fst st') + slack st' i link <= length (fst st) + slack st i link)%nat.
Proof.
  cbv zeta.
  destruct (keywordStep_cases i link linkText href ariaLabel title st keyword)
    as [E | (_ & L & E)]; cbv zeta in E; rewrite E; [lia|].
  unfold slack. cbn [fst snd]. rewrite L, addPolicyLinkIndicator_cases.
  rewrite length_app. cbn [length].
  destruct (blockedNow (snd st) i link) eqn:B.
  - rewrite B, listed_snoc. lia.
  - assert (B' : blockedNow (snd st ++ [i]) i link = true).
    { unfold blockedNow. rewrite mem_snoc, orb_true_r. reflexivity. }
    rewrite B'.
    destruct (listed (entryNow (snd st ++ [i]) i link)
                     (fst st ++ [entryNow (snd st) i link])); lia.
Qed.

(** A turn of the outer loop adds at most two entries. *)
Lemma linkStep_length (st : list PolicyLink * list nat) (il : nat * Element.t) :
  (length (fst (linkStep st il)) <= length (fst st) + 2)%nat.
Proof.
  destruct il as [i link]. unfold linkStep.
  set (f := keywordStep i link _ _ _ _).
  assert (H : (length (fst (fold_left f policyKeywords st))
               + slack (fold_left f policyKeywords st) i link
               <= length (fst st) + slack st i link)%nat).
  { apply (fold_left_invariant f
             (fun s => (length (fst s) + slack s i link
                        <= length (fst st) + slack st i link)%nat)).
    - intros s k _ Hs. unfold f.
      pose proof (keywordStep_slack i link
                    (trim (toLowerCase (textContentNow (snd st) i link)))
                    (toLowerCase (Element.href link))
                    (toLowerCase (attribute (Element.aria_label link)))
                    (toLowerCase (attribute (Element.title link))) s k) as K.
      cbv zeta in K. lia.
    - lia. }
  assert (S2 : (slack st i link <= 2)%nat).
  { unfold slack. destruct (blockedNow _ _ _), (listed _ _); simpl; lia. }
  lia.
Qed.

(** For a link that holds an indicator, or whose parent does, when the scan
    starts: at most one entry, and no indicator added. *)
Lemma linkStep_blocked (st : list PolicyLink * list nat) (il : nat * Element.t) :
  Element.ownIndicator (snd il) || Element.parentIndicator (snd il) = true ->
  (length (fst (linkStep st il)) <= length (fst st) + 1)%nat
  /\ snd (linkStep st il) = snd st.
Proof.
  destruct il as [i link]. cbn [snd]. intros Hb. unfold linkStep.
  set (f := keywordStep i link _ _ _ _).
  assert (B : forall m, blockedNow m i link = true).
  { intros m. unfold blockedNow.
    destruct (Element.ownIndicator link); [reflexivity|].
    cbn in Hb. rewrite Hb. cbn. apply orb_true_r. }
  assert (H : (length (fst (fold_left f policyKeywords st))
               + slack (fold_left f policyKeywords st) i link
               <= length (fst st) + slack st i link)%nat
              /\ snd (fold_left f policyKeywords st) = snd st).
  { apply (fold_left_invariant f
             (fun s => (length (fst s) + slack s i link
                        <= length (fst st) + slack st i link)%nat
                       /\ snd s = snd st)).
    - intros s k _ [Hs Hm]. unfold f. split.
      + pose proof (keywordStep_slack i link
                      (trim (toLowerCase (textContentNow (snd st) i link)))
                      (toLowerCase (Element.href link))
                      (toLowerCase (attribute (Element.aria_label link)))
                      (toLowerCase (attribute (Element.title link))) s k) as K.
        cbv zeta in K. lia.
      + destruct (keywordStep_cases i link
                    (trim (toLowerCase (textContentNow (snd st) i link)))
                    (toLowerCase (Element.href link))
                    (toLowerCase (attribute (Element.aria_label link)))
                    (toLowerCase (attribute (Element.title link))) s k)
          as [E | (_ & _ & E)]; cbv zeta in E; rewrite E; [exact Hm|].
        cbn [snd]. rewrite addPolicyLinkIndicator_cases, B. exact Hm.
    - split; [lia | reflexivity]. }
  destruct H as [H1 H2]. split; [|exact H2].
  assert (S1 : (slack st i link <= 1)%nat).
  { unfold slack. rewrite B. destruct (listed _ _); simpl; lia. }
  lia.
Qed.

End LinkScanSteps.

Section LinkScanMore.

Import Background.

Variable links : list Element.t.

Lemma NoDup_firstn {A} (n : nat) (l : list A) : NoDup l -> NoDup (firstn n l).
Proof.
  revert n. induction l as [|a l IH]; intros [|n] H; simpl; try constructor.
  - inversion H; subst. intros Hin.
    rewrite <- (firstn_skipn n l) in H2. apply H2, in_or_app. left. exact Hin.
  - inversion H; subst. apply IH. assumption.
Qed.

(** X11: No two links of the report have the same [href] and [text]. *)
Theorem report_links_are_distinct (page : Page) :
  NoDup (foundPolicyLinks (detectPolicyContent page)).
Proof.
  destruct (detectPolicyContent_fields page) as (_ & _ & H). cbv zeta in H.
  rewrite H. apply NoDup_firstn, scanLinks_NoDup.
Qed.

Lemma scan_length (pairs : list (nat * Element.t))
  (st : list PolicyLink * list nat) :
  (length (fst (fold_left linkStep pairs st))
   <= length (fst st) + 2 * length pairs)%nat.
Proof.
  revert st. induction pairs as [|il pairs IH]; intros st; cbn [fold_left length].
  - lia.
  - pose proof (IH (linkStep st il)) as H1.
    pose proof (linkStep_length st il) as H2. lia.
Qed.

(** X12: The scan lists at most two entries per link. *)
Theorem entries_at_most_twice_the_links :
  (length (fst (scanLinks links)) <= 2 * length links)%nat.
Proof.
  unfold scanLinks.
  pose proof (scan_length (combine (seq 0 (length links)) links) ([], [])) as H.
  rewrite length_combine, length_seq, Nat.min_id in H. exact H.
Qed.

Lemma entryNow_fromLink (marked : list nat) (i : nat) (link : Element.t) :
  In link links -> fromLink links (entryNow marked i link).
Proof.
  intros H. exists link. split; [exact H|]. split; [reflexivity|].
  unfold entryNow, textContentNow. cbn [text].
  destruct (mem i marked); [right; reflexivity|].
  left. rewrite app_nil_r. reflexivity.
Qed.

Lemma linkStep_fromLink (st : list PolicyLink * list nat) (il : nat * Element.t) :
  In (snd il) links ->
  Forall (fromLink links) (fst st) -> Forall (fromLink links) (fst (linkStep st il)).
Proof.
  destruct il as [i link]. cbn [snd]. intros Hin H0. unfold linkStep.
  apply (fold_left_invariant _ (fun s => Forall (fromLink links) (fst s))); [|exact H0].
  intros s k _ Hs.
  destruct (keywordStep_cases i link
              (trim (toLowerCase (textContentNow (snd st) i link)))
              (toLowerCase (Element.href link))
              (toLowerCase (attribute (Element.aria_label link)))
              (toLowerCase (attribute (Element.title link))) s k)
    as [E | (_ & _ & E)]; cbv zeta in E; rewrite E; [exact Hs|].
  cbn [fst]. apply Forall_app. split; [exact Hs|].
  constructor; [|constructor]. apply entryNow_fromLink. exact Hin.
Qed.

(** X13: Every entry of the scan comes from a link of the page. *)
Theorem entries_come_from_links :
  Forall (fromLink links) (fst (scanLinks links)).
Proof.
  unfold scanLinks.
  apply (fold_left_invariant _ (fun s => Forall (fromLink links) (fst s)));
    [|constructor].
  intros s il Hil Hs. apply linkStep_fromLink; [|exact Hs].
  destruct il as [i link]. apply in_combine_r in Hil. exact Hil.
Qed.

End LinkScanMore.

Section LinkMarks.

Import Background.

Variable links : list Element.t.

(** The turn of the link at position [a]. *)
Lemma linkStep_marks (a : nat) (l : Element.t)
  (st : list PolicyLink * list nat) :
  nth_error links a = Some l ->
  marksWellFormed links a (snd st) ->
  marksWellFormed links (S a) (snd (linkStep st (a, l))).
Proof.
  intros Hnth [Hnd Hall]. unfold linkStep.
  assert (Hfresh : mem a (snd st) = false).
  { destruct (mem a (snd st)) eqn:M; [|reflexivity].
    apply mem_In in M. apply Hall in M. lia. }
  assert (Htext : textContentNow (snd st) a l = Element.textContent l).
  { unfold textContentNow. rewrite Hfresh. apply app_nil_r. }
  rewrite Htext.
  set (f := keywordStep a l _ _ _ _).
  assert (J : NoDup (snd (fold_left f policyKeywords st))
              /\ forall j, In j (snd (fold_left f policyKeywords st)) ->
                           In j (snd st) \/ (j = a /\ mayBeMarked l)).
  { apply (fold_left_invariant f
             (fun s => NoDup (snd s)
                       /\ forall j, In j (snd s) ->
                                    In j (snd st) \/ (j = a /\ mayBeMarked l))).
    - intros s k Hk [Hs1 Hs2]. unfold f.
      destruct (keywordStep_cases a l
                  (trim (toLowerCase (Element.textContent l)))
                  (toLowerCase (Element.href l))
                  (toLowerCase (attribute (Element.aria_label l)))
                  (toLowerCase (attribute (Element.title l))) s k)
        as [E | (Hm & _ & E)]; cbv zeta in E; rewrite E; [auto|].
      cbn [snd]. rewrite addPolicyLinkIndicator_cases.
      destruct (blockedNow (snd s) a l) eqn:B; [auto|].
      unfold blockedNow in B.
      apply orb_false_iff in B. destruct B as [B1 B2].
      apply orb_false_iff in B1. destruct B1 as [Bown Bmem].
      apply orb_false_iff in B2. destruct B2 as [Bpar _].
      split.
      + apply NoDup_snoc; [exact Hs1|]. intros Hin.
        apply mem_In in Hin. congruence.
      + intros j Hj. apply in_app_or in Hj. destruct Hj as [Hj | [<- | []]].
        * apply Hs2. exact Hj.
        * right. split; [reflexivity|].
          split; [exact Bown|]. split; [exact Bpar|].
          unfold matchesSomePhrase. apply existsb_exists.
          exists k. split; [exact Hk | exact Hm].
    - split; [exact Hnd | auto]. }
  destruct J as [J1 J2]. split; [exact J1|].
  intros j Hj. destruct (J2 j Hj) as [Hold | [-> Hnew]].
  - destruct (Hall j Hold) as [Hlt Hg]. split; [lia | exact Hg].
  - split; [lia|]. exists l. split; [exact Hnth | exact Hnew].
Qed.

Lemma fold_left_numbered_cons {A S} (f : S -> nat * A -> S) (a : nat)
  (l : A) (ls : list A) (st : S) :
  fold_left f (combine (seq a (length (l :: ls))) (l :: ls)) st
  = fold_left f (combine (seq (Datatypes.S a) (length ls)) ls) (f st (a, l)).
Proof. reflexivity. Qed.

Lemma scan_marks (ls : list Element.t) (a : nat)
  (st : list PolicyLink * list nat) :
  (forall k, nth_error ls k = nth_error links (a + k)) ->
  marksWellFormed links a (snd st) ->
  marksWellFormed links (a + length ls)
    (snd (fold_left linkStep (combine (seq a (length ls)) ls) st)).
Proof.
  revert a st. induction ls as [|l ls IH]; intros a st Hnth H.
  - cbn. rewrite Nat.add_0_r. exact H.
  - rewrite fold_left_numbered_cons. cbn [length].
    replace (a + S (length ls))%nat with (S a + length ls)%nat by lia.
    apply IH.
    + intros k. specialize (Hnth (S k)). cbn [nth_error] in Hnth.
      rewrite Hnth. f_equal. lia.
    + apply linkStep_marks; [|exact H].
      specialize (Hnth 0%nat). cbn [nth_error] in Hnth.
      rewrite Nat.add_0_r in Hnth. symmetry. exact Hnth.
Qed.

(** X14: The scan adds an indicator to a link at most once, only to links of the
    page that a policy phrase matches, and never to a link that held one,
    or whose parent held one, when the scan started. *)
Theorem indicators_only_on_matching_links :
  let marked := snd (scanLinks links) in
  NoDup marked
  /\ (length marked <= length links)%nat
  /\ forall j, In j marked ->
               exists link, nth_error links j = Some link
                            /\ Element.ownIndicator link = false
                            /\ Element.parentIndicator link = false
                            /\ matchesSomePhrase link = true.
Proof.
  cbv zeta. unfold scanLinks.
  pose proof (@scan_marks links 0%nat ([], [])) as H.
  cbn [Nat.add] in H.
  destruct H as [H1 H2].
  - intros k. reflexivity.
  - split; [constructor | intros j []].
  - split; [exact H1|]. split.
    + pose proof (@NoDup_incl_length _ _ (seq 0 (length links)) H1) as L.
      rewrite length_seq in L. apply L.
      intros j Hj. apply in_seq. destruct (H2 j Hj) as [Hlt _]. lia.
    + intros j Hj. destruct (H2 j Hj) as [_ Hg]. exact Hg.
Qed.

(** X15: On a page where every link holds an indicator, or has a parent that
    holds one, when the scan starts (as after an earlier scan), no
    indicator is added, and a link is listed at most once, under its own
    trimmed text. *)
Theorem marked_page_lists_each_link_once :
  (forall link, In link links ->
                Element.ownIndicator link || Element.parentIndicator link = true) ->
  snd (scanLinks links) = []
  /\ (length (fst (scanLinks links)) <= length links)%nat
  /\ Forall (plainEntry links) (fst (scanLinks links)).
Proof.
  intros Hb. unfold scanLinks.
  set (pairs := combine (seq 0 (length links)) links).
  assert (Hp : forall il, In il pairs -> In (snd il) links).
  { intros [i l] H. apply in_combine_r in H. exact H. }
  assert (Hlen : (length pairs <= length links)%nat).
  { unfold pairs. rewrite length_combine, length_seq. lia. }
  clearbody pairs.
  assert (G : forall ps st,
             (forall il, In il ps -> In (snd il) links) ->
             snd st = [] -> Forall (plainEntry links) (fst st) ->
             snd (fold_left linkStep ps st) = []
             /\ (length (fst (fold_left linkStep ps st))
                 <= length (fst st) + length ps)%nat
             /\ Forall (plainEntry links) (fst (fold_left linkStep ps st))).
  { induction ps as [|il ps IH]; intros st Hin Hm Hf.
    - cbn. split; [exact Hm|]. split; [lia | exact Hf].
    - cbn [fold_left length].
      assert (Hil : In (snd il) links) by (apply Hin; left; reflexivity).
      destruct (linkStep_blocked st il (Hb _ Hil)) as [L1 L2].
      assert (Hf' : Forall (plainEntry links) (fst (linkStep st il))).
      { destruct il as [i l]. cbn [snd] in Hil. unfold linkStep.
        set (f := keywordStep i l _ _ _ _).
        assert (K : snd (fold_left f policyKeywords st) = []
                    /\ Forall (plainEntry links)
                              (fst (fold_left f policyKeywords st))).
        { apply (fold_left_invariant f
                   (fun s => snd s = []
                             /\ Forall (plainEntry links) (fst s)));
            [|split; assumption].
          intros s k _ [Hs1 Hs2]. unfold f.
          destruct (keywordStep_cases i l
                      (trim (toLowerCase (textContentNow (snd st) i l)))
                      (toLowerCase (Element.href l))
                      (toLowerCase (attribute (Element.aria_label l)))
                      (toLowerCase (attribute (Element.title l))) s k)
            as [E | (_ & _ & E)]; cbv zeta in E; rewrite E; [auto|].
          cbn [fst snd]. rewrite Hs1. split.
          - rewrite addPolicyLinkIndicator_cases.
            assert (B : blockedNow [] i l = true).
            { unfold blockedNow. specialize (Hb _ Hil).
              destruct (Element.ownIndicator l); [reflexivity|].
              cbn in Hb. rewrite Hb. reflexivity. }
            rewrite B. reflexivity.
          - apply Forall_app. split; [exact Hs2|].
            constructor; [|constructor]. exists l.
            split; [exact Hil|]. split; [reflexivity|].
            unfold entryNow, textContentNow. cbn [text mem existsb].
            rewrite app_nil_r. reflexivity. }
        exact (proj2 K). }
      destruct (IH (linkStep st il)) as (A1 & A2 & A3).
      + intros il' H. apply Hin. right. exact H.
      + rewrite L2. exact Hm.
      + exact Hf'.
      + split; [exact A1|]. split; [lia | exact A3]. }
  destruct (G pairs ([], [])) as (A1 & A2 & A3);
    [exact Hp | reflexivity | constructor |].
  split; [exact A1|]. split; [cbn [fst length] in A2; lia | exact A3].
Qed.

End LinkMarks.

(** The link that reads "Terms of Service", this time next to an indicator:
    one entry. *)
Lemma marked_page_lists_each_link_once_witness :
  let links := [markedLink 0 (lit "Terms of Service")
                           (lit "https://example.com/terms")] in
  snd (Background.scanLinks links) = []
  /\ (length (fst (Background.scanLinks links)) <= 1)%nat
  /\ Forall (plainEntry links) (fst (Background.scanLinks links)).
Proof.
  apply (marked_page_lists_each_link_once
           [markedLink 0 (lit "Terms of Service")
                       (lit "https://example.com/terms")]).
  intros link [<- | []]. reflexivity.
Defined.

(* ------------------------------------------------------------------ *)
(** ** The service worker and its storage *)

Section WorkerFacts.

Import stdpp.base stdpp.gmap.
Import Worker.

Lemma digits_inj (d1 d2 : Decimal.uint) : digits d1 = digits d2 -> d1 = d2.
Proof.
  revert d2. induction d1; intros d2; destruct d2; cbn [digits]; intros H;
    try discriminate; try reflexivity;
    inversion H; f_equal; auto.
Qed.

(** Two tabs never share a storage key, and no tab uses the key of the
    setting. *)
Lemma analysisKey_inj (t1 t2 : nat) :
  analysisKey t1 = analysisKey t2 -> t1 = t2.
Proof.
  unfold analysisKey, ofNat. intros H. apply app_inv_head in H.
  apply digits_inj in H. apply DecimalNat.Unsigned.to_uint_inj. exact H.
Qed.

Lemma analysisKey_not_autoOpenKey (t : nat) : analysisKey t <> autoOpenKey.
Proof. unfold analysisKey, autoOpenKey. cbn. discriminate. Qed.

Lemma showPolicyAlert_storage (tabId : nat) (pd : Background.Report)
  (b : Browser) :
  storage (showPolicyAlert tabId pd b) = storage b.
Proof.
  unfold showPolicyAlert.
  destruct (Background.hasRiskyKeywords pd);
    [|destruct (Background.hasPolicyContent pd)];
    cbn [andb]; rewrite ?andb_true_r, ?andb_false_r;
    match goal with
    | |- context [if ?c then _ else _] => destruct c
    | _ => idtac
    end; reflexivity.
Qed.

(** What [analyzePageForPolicies] does with a report worth keeping. *)
Lemma analyzePageForPolicies_kept (tabId : nat) (tab_url host : jsstring)
  (v : Visit) (pd : Background.Report)
  (rest : list (option Background.Report)) (b : Browser) :
  executeScript v = Popup.Resolved (Some pd :: rest) ->
  Background.hasPolicyContent pd || Background.hasRiskyKeywords pd = true ->
  URL_hostname v = Popup.Resolved host ->
  analyzePageForPolicies tabId tab_url v b
  = showPolicyAlert tabId pd
      (storage_set (analysisKey tabId)
         (StoredAnalysis {| url := tab_url; hostname := host;
                            policyData := pd; timestamp := Date_now v |}) b).
Proof.
  intros H1 H2 H3. unfold analyzePageForPolicies. rewrite H1, H2, H3.
  reflexivity.
Qed.

(** X16: After the worker has analysed a tab whose report has a flag set, the
    [getPageAnalysis] message for that tab is answered with the tab's URL,
    its host, the report and the time; the answers for other tabs and the
    auto-open setting are as before. *)
Theorem stored_analysis_is_returned (tabId : nat) (tab_url host : jsstring)
  (v : Visit) (pd : Background.Report)
  (rest : list (option Background.Report)) (b : Browser) :
  executeScript v = Popup.Resolved (Some pd :: rest) ->
  Background.hasPolicyContent pd || Background.hasRiskyKeywords pd = true ->
  URL_hostname v = Popup.Resolved host ->
  let b' := analyzePageForPolicies tabId tab_url v b in
  fst (onMessage (getPageAnalysis tabId) b')
  = pageAnalysis
      (Some (StoredAnalysis {| url := tab_url; hostname := host;
                               policyData := pd; timestamp := Date_now v |}))
  /\ (forall other, other <> tabId ->
        fst (onMessage (getPageAnalysis other) b')
        = fst (onMessage (getPageAnalysis other) b))
  /\ getAutoOpenSetting b' = getAutoOpenSetting b.
Proof.
  intros H1 H2 H3. cbv zeta.
  rewrite (@analyzePageForPolicies_kept tabId tab_url host v pd rest b
             H1 H2 H3).
  unfold onMessage, getAutoOpenSetting. cbn [fst].
  rewrite !showPolicyAlert_storage. cbn [storage_set storage].
  split; [|split].
  - rewrite lookup_insert_eq. reflexivity.
  - intros other Hne. rewrite lookup_insert_ne; [reflexivity|].
    intros E. apply analysisKey_inj in E. congruence.
  - rewrite lookup_insert_ne; [reflexivity|].
    apply analysisKey_not_autoOpenKey.
Qed.

(** X17: A visit that yields no report, or a report with no flag set, or whose
    URL gives no host, changes nothing: what was stored for the tab, its
    badge and the notifications stay as they were. *)
Theorem quiet_visit_changes_nothing (tabId : nat) (tab_url : jsstring)
  (v : Visit) (b : Browser) :
  (forall pd rest,
      executeScript v = Popup.Resolved (Some pd :: rest) ->
      Background.hasPolicyContent pd || Background.hasRiskyKeywords pd = false
      \/ URL_hostname v = Popup.Rejected) ->
  analyzePageForPolicies tabId tab_url v b = b.
Proof.
  intros H. unfold analyzePageForPolicies.
  destruct (executeScript v) as [[|[pd|] rest]|]; try reflexivity.
  destruct (H pd rest eq_refl) as [E | E]; rewrite E; [reflexivity|].
  destruct (_ || _); reflexivity.
Qed.


(** X19: The auto-open setting is on until a [setAutoOpen] message carries
    [false]; any other value turns it on; the message is answered with
    success and leaves the stored analyses alone. *)
Theorem auto_open_setting (enabled : Json) (b : Browser) :
  getAutoOpenSetting freshBrowser = true
  /\ fst (onMessage (setAutoOpen enabled) b) = success
  /\ getAutoOpenSetting (snd (onMessage (setAutoOpen enabled) b))
     = match enabled with JBool false => false | _ => true end
  /\ (forall tabId,
        fst (onMessage (getPageAnalysis tabId)
                       (snd (onMessage (setAutoOpen enabled) b)))
        = fst (onMessage (getPageAnalysis tabId) b)).
Proof.
  split; [reflexivity|]. split; [reflexivity|].
  unfold onMessage, getAutoOpenSetting, storage_set.
  cbn [fst snd storage]. split.
  - rewrite lookup_insert_eq. reflexivity.
  - intros tabId. rewrite lookup_insert_ne; [reflexivity|].
    intros E. symmetry in E. exact (analysisKey_not_autoOpenKey E).
Qed.

End WorkerFacts.

Section WorkerAlerts.

Import stdpp.base stdpp.gmap.
Import Worker.



(** X21: A tab is recorded exactly when the injected function returns a
    report (the document has a body and all its anchors are HTML anchors),
    the text of the page contains a policy phrase or a risk phrase, and the
    URL gives a host: then the storage holds that report for the tab.  With
    no body, with an SVG anchor, or with no phrase in the text, the visit
    changes nothing, whatever the links are. *)
Theorem page_is_recorded_iff_text_has_phrase (tabId : nat)
  (tab_url host : jsstring) (v : Visit) (doc : Injection.Document)
  (b : Browser) :
  carries v (Injection.injectedDetectPolicyContent doc) ->
  URL_hostname v = Popup.Resolved host ->
  let b' := analyzePageForPolicies tabId tab_url v b in
  (forall text,
      Injection.body doc = Some text ->
      Injection.allHtml (Injection.anchors doc) = true ->
      hasPhrase text ->
      storage b' !! analysisKey tabId
      = Some (StoredAnalysis
                {| url := tab_url; hostname := host;
                   policyData :=
                     Background.detectPolicyContent (Injection.pageOf doc text);
                   timestamp := Date_now v |}))
  /\ (Injection.body doc = None
      \/ Injection.allHtml (Injection.anchors doc) = false
      \/ (exists text, Injection.body doc = Some text /\ ~ hasPhrase text) ->
      b' = b).
Proof.
  intros Hc Hu. cbv zeta.
  assert (F : forall text,
             let pd := Background.detectPolicyContent
                         (Injection.pageOf doc text) in
             Background.hasPolicyContent pd || Background.hasRiskyKeywords pd
             = true <-> hasPhrase text).
  { intros text. cbv zeta.
    destruct (detectPolicyContent_flags (Injection.pageOf doc text))
      as [F1 F2].
    cbv zeta in F1, F2. cbn [Injection.pageOf Background.innerText] in F1, F2.
    rewrite orb_true_iff, F1, F2. unfold hasPhrase. split.
    - intros [[k [Hk Hk']] | [k [Hk Hk']]]; exists k;
        (split; [apply in_or_app; auto | exact Hk']).
    - intros [k [Hk Hk']]. apply in_app_or in Hk.
      destruct Hk as [Hk | Hk]; [left | right]; exists k; auto. }
  assert (Q : (forall pd rest,
                  executeScript v <> Popup.Resolved (Some pd :: rest)) ->
              analyzePageForPolicies tabId tab_url v b = b).
  { intros H. unfold analyzePageForPolicies.
    destruct (executeScript v) as [[|[pd|] rest]|]; try reflexivity.
    exfalso. exact (H pd rest eq_refl). }
  unfold Injection.injectedDetectPolicyContent in Hc. split.
  - intros text Hb Ha Hp. rewrite Hb, Ha in Hc. cbn [carries] in Hc.
    apply F in Hp. cbv zeta in Hp.
    rewrite (@analyzePageForPolicies_kept tabId tab_url host v _ [] b
               Hc Hp Hu).
    rewrite showPolicyAlert_storage. cbn [storage_set storage].
    apply lookup_insert_eq.
  - intros [Hb | [Ha | [text [Hb Hp]]]].
    + rewrite Hb in Hc. cbn [carries] in Hc. apply Q. exact Hc.
    + destruct (Injection.body doc) as [text|]; [rewrite Ha in Hc|];
        cbn [carries] in Hc; apply Q; exact Hc.
    + rewrite Hb in Hc.
      destruct (Injection.allHtml (Injection.anchors doc));
        cbn [carries] in Hc; [|apply Q; exact Hc].
      unfold analyzePageForPolicies. rewrite Hc.
      destruct (Background.hasPolicyContent _ || Background.hasRiskyKeywords _)
        eqn:E; [|reflexivity].
      exfalso. apply Hp. apply (F text). exact E.
Qed.

End WorkerAlerts.

Section WorkerWitnesses.

Import stdpp.base stdpp.gmap.
Import Worker.

(** Tab 7 shows [busyPage]; the worker is asked for tab 7. *)
Lemma stored_analysis_is_returned_witness :
  fst (onMessage (getPageAnalysis 7)
         (analyzePageForPolicies 7 (lit "https://example.com/")
            (visitOf busyPage (lit "example.com") 1700000000000)
            freshBrowser))
  = pageAnalysis
      (Some (StoredAnalysis
               {| url := lit "https://example.com/";
                  hostname := lit "example.com";
                  policyData := Background.detectPolicyContent busyPage;
                  timestamp := 1700000000000 |})).
Proof.
  apply (@stored_analysis_is_returned 7 (lit "https://example.com/")
           (lit "example.com")
           (visitOf busyPage (lit "example.com") 1700000000000)
           (Background.detectPolicyContent busyPage) [] freshBrowser).
  - reflexivity.
  - vm_compute. reflexivity.
  - reflexivity.
Defined.

(** A page with no phrase and no link: nothing changes. *)
Lemma quiet_visit_changes_nothing_witness :
  analyzePageForPolicies 7 (lit "https://example.com/")
    (visitOf (textPage (lit "Hello, world.")) (lit "example.com") 0)
    freshBrowser
  = freshBrowser.
Proof.
  apply quiet_visit_changes_nothing.
  intros pd rest H. left.
  cbn [visitOf executeScript] in H.
  remember (Background.detectPolicyContent (textPage (lit "Hello, world.")))
    as r eqn:Er.
  injection H as Hpd _. rewrite <- Hpd, Er.
  vm_compute. reflexivity.
Defined.


(** [busyDocument] has phrases in its text and only HTML anchors: it is
    recorded; [svgDocument] has a phrase too, but an SVG anchor: the
    function threw, and nothing changes. *)
Lemma page_is_recorded_iff_text_has_phrase_witness :
  storage (analyzePageForPolicies 7 (lit "https://example.com/")
             (visitOf busyPage (lit "example.com") 0) freshBrowser)
    !! analysisKey 7
  = Some (StoredAnalysis
            {| url := lit "https://example.com/";
               hostname := lit "example.com";
               policyData :=
                 Background.detectPolicyContent
                   (Injection.pageOf busyDocument
                      (Background.innerText busyPage));
               timestamp := 0 |})
  /\ analyzePageForPolicies 7 (lit "https://example.com/")
       (failedVisit (lit "example.com") 0) freshBrowser
     = freshBrowser.
Proof.
  split.
  - apply (proj1 (@page_is_recorded_iff_text_has_phrase 7
                    (lit "https://example.com/") (lit "example.com")
                    (visitOf busyPage (lit "example.com") 0)
                    busyDocument freshBrowser eq_refl eq_refl)
             (Background.innerText busyPage) eq_refl eq_refl).
    exists (lit "sell your data"). split.
    + apply in_or_app. right. left. reflexivity.
    + apply includes_Contains. vm_compute. reflexivity.
  - apply (proj2 (@page_is_recorded_iff_text_has_phrase 7
                    (lit "https://example.com/") (lit "example.com")
                    (failedVisit (lit "example.com") 0)
                    svgDocument freshBrowser
                    ltac:(intros pd rest; discriminate) eq_refl)).
    right. left. reflexivity.
Defined.

End WorkerWitnesses.

(* ------------------------------------------------------------------ *)
(** ** The popup's own scan of the page and the status badge *)

Section RealTimeScan.

Import PopupPage.

Lemma flagStep_fold (pageText : jsstring) (keywords : list jsstring)
  (b : bool) :
  fold_left (flagStep pageText) keywords b
  = b || existsb (includes pageText) keywords.
Proof.
  revert b. induction keywords as [|k ks IH]; intros b; simpl.
  - rewrite orb_false_r. reflexivity.
  - rewrite IH. unfold flagStep.
    destruct (includes pageText k); simpl;
      [rewrite orb_true_r; reflexivity | reflexivity].
Qed.

(** The phrases of the popup's scan are phrases of the worker's scan, and
    are in lower case already. *)
Lemma realTime_keywords_known :
  forallb (fun k => existsb (str_eqb k) Background.policyKeywords
                    && str_eqb (toLowerCase k) k) realTimePolicyKeywords
  = true
  /\ forallb (fun k => existsb (str_eqb k) Background.riskyKeywords
                       && str_eqb (toLowerCase k) k) realTimeRiskyKeywords
     = true.
Proof. split; vm_compute; reflexivity. Qed.

Lemma known_phrase (k : jsstring) (l known : list jsstring) :
  forallb (fun k => existsb (str_eqb k) known && str_eqb (toLowerCase k) k) l
  = true ->
  In k l -> In k known /\ toLowerCase k = k.
Proof.
  intros H Hin. rewrite forallb_forall in H. specialize (H k Hin).
  apply andb_true_iff in H. destruct H as [H1 H2].
  apply str_eqb_eq in H2. split; [|exact H2].
  apply existsb_exists in H1. destruct H1 as [k' [Hk' E]].
  apply str_eqb_eq in E. subst. exact Hk'.
Qed.

(** A flag that the popup's scan sets on a page is set by the worker's scan
    of that page. *)
Lemma realTime_flags_known (page : Background.Page) :
  (rt_hasPolicyContent (realTimeScan page) = true ->
   Background.hasPolicyContent (Background.detectPolicyContent page) = true)
  /\ (rt_hasRiskyKeywords (realTimeScan page) = true ->
      Background.hasRiskyKeywords (Background.detectPolicyContent page)
      = true).
Proof.
  destruct (detectPolicyContent_flags page) as [F1 F2].
  cbv zeta in F1, F2. destruct realTime_keywords_known as [K1 K2].
  unfold realTimeScan. cbn [rt_hasPolicyContent rt_hasRiskyKeywords].
  rewrite !flagStep_fold. cbn [orb]. split; intros H;
    apply existsb_exists in H; destruct H as [k [Hk Hc]];
    apply includes_Contains in Hc.
  - apply F1. destruct (@known_phrase k _ _ K1 Hk) as [Hin Hl].
    exists k. rewrite Hl. auto.
  - apply F2. destruct (@known_phrase k _ _ K2 Hk) as [Hin Hl].
    exists k. rewrite Hl. auto.
Qed.

(** X22: In a document where the worker's injected function returns a
    report, the popup's own scan returns too, and a flag that it sets is
    also set in the worker's report.  The converse fails twice: the worker
    knows more phrases ("indefinitely" is a risk for the worker only), and
    in a document with an SVG anchor the popup's scan returns its flags
    while the worker's function throws and reports nothing. *)
Theorem popup_scan_flags_imply_worker_flags :
  (forall doc report,
      Injection.injectedDetectPolicyContent doc = Popup.Resolved report ->
      exists rt,
        Injection.injectedRealTimeScan doc = Popup.Resolved rt
        /\ (rt_hasPolicyContent rt = true ->
            Background.hasPolicyContent report = true)
        /\ (rt_hasRiskyKeywords rt = true ->
            Background.hasRiskyKeywords report = true))
  /\ (exists rt report,
         Injection.injectedRealTimeScan
           (textDocument (lit "kept indefinitely")) = Popup.Resolved rt
         /\ Injection.injectedDetectPolicyContent
              (textDocument (lit "kept indefinitely")) = Popup.Resolved report
         /\ rt_hasRiskyKeywords rt = false
         /\ Background.hasRiskyKeywords report = true)
  /\ (exists rt,
         Injection.injectedRealTimeScan svgDocument = Popup.Resolved rt
         /\ rt_hasRiskyKeywords rt = true
         /\ Injection.injectedDetectPolicyContent svgDocument
            = Popup.Rejected).
Proof.
  split; [|split].
  - intros doc report H.
    unfold Injection.injectedDetectPolicyContent in H.
    unfold Injection.injectedRealTimeScan.
    destruct (Injection.body doc) as [text|]; [|discriminate H].
    destruct (Injection.allHtml (Injection.anchors doc)); [|discriminate H].
    remember (Background.detectPolicyContent (Injection.pageOf doc text))
      as r eqn:E.
    injection H as H. subst report. subst r.
    exists (realTimeScan (Injection.pageOf doc text)).
    split; [reflexivity|].
    exact (realTime_flags_known (Injection.pageOf doc text)).
  - eexists. eexists. split; [reflexivity|]. split; [reflexivity|].
    split; vm_compute; reflexivity.
  - eexists. split; [reflexivity|]. split; vm_compute; reflexivity.
Qed.

(** X23: The status badge reads "AI: Fallback Mode" exactly when none of the
    five APIs is there, and "AI: k/5" with the number of APIs that are
    there otherwise. *)
Theorem status_badge_text (a : Availability) :
  let k := length (filter (fun x => x) (entries a)) in
  (k = 0%nat <-> statusText a = lit "AI: Fallback Mode")
  /\ (k <> 0%nat ->
      statusText a = lit "AI: " ++ ofNat k ++ lit "/5" /\ (k <= 5)%nat).
Proof.
  destruct a as [[] [] [] [] []]; cbv zeta;
    cbn [entries filter length av_summarizer av_writer av_rewriter
         av_translator av_proofreader];
    (split;
     [ split; intros H;
       first [ discriminate H
             | reflexivity
             | (vm_compute in H; discriminate H) ]
     | intros H;
       first [ (exfalso; apply H; reflexivity)
             | (split; [vm_compute; reflexivity | lia]) ] ]).
Qed.

(** X24: When the badge of [config.js]'s check reads "AI: Fallback Mode", a
    manual analysis calls no provider and shows the heuristic sentence. *)
Theorem fallback_mode_gives_heuristic_summary
  (window_ai : option WindowAI) (text : jsstring) (w : Popup.World) :
  statusText (checkAIAvailability window_ai) = lit "AI: Fallback Mode" ->
  let w' := Popup.exec
              (Popup.analyzePolicyText (option_map core window_ai) text) w in
  Popup.summary_textContent w' = Popup.heuristicSummary text
  /\ Popup.calls w' = Popup.calls w.
Proof.
  intros H. cbv zeta.
  assert (S : Popup.provider (option_map core window_ai) Popup.summarizer
              = None).
  { destruct window_ai as [ai|]; [|reflexivity]. cbn.
    destruct (Popup.summarizer (core ai)) eqn:E; [|reflexivity].
    exfalso. unfold checkAIAvailability in H. rewrite E in H.
    destruct (Popup.writer (core ai)), (Popup.rewriter (core ai)),
      (translator ai), (proofreader ai); vm_compute in H; discriminate. }
  destruct (analyzePolicyText_stages (option_map core window_ai) text w)
    as [H1 H2].
  cbv zeta in H1, H2. rewrite H1, H2.
  rewrite (condense_absent (option_map core window_ai) text w S).
  cbn [fst snd]. rewrite reframe_empty. cbn [fst snd]. rewrite polish_empty.
  split; reflexivity.
Qed.

End RealTimeScan.

(** No [window.ai] at all: fallback mode. *)
Lemma fallback_mode_gives_heuristic_summary_witness :
  Popup.summary_textContent
    (Popup.exec (Popup.analyzePolicyText (option_map PopupPage.core None)
                                         scenarioText) initialWorld)
  = Popup.heuristicSummary scenarioText
  /\ Popup.calls
       (Popup.exec (Popup.analyzePolicyText (option_map PopupPage.core None)
                                            scenarioText) initialWorld)
     = [].
Proof.
  apply (@fallback_mode_gives_heuristic_summary None scenarioText initialWorld).
  vm_compute. reflexivity.
Defined.

(** A summarizer only: "AI: 1/5". *)
Lemma status_badge_text_witness :
  PopupPage.statusText (PopupPage.checkAIAvailability (Some summarizerOnly))
  = lit "AI: 1/5".
Proof.
  apply (proj2 (status_badge_text
                  (PopupPage.checkAIAvailability (Some summarizerOnly)))).
  vm_compute. discriminate.
Defined.

(* ------------------------------------------------------------------ *)
(** ** The popup's analysis of the current page *)

Section CurrentPage.

Import Popup PopupPage.

Variable chrome : Chrome.

Lemma indicate_settled (level : Level) (description : jsstring) (d : Doc) :
  level <> analyzing ->
  settled (onWorld (updateRiskIndicator level description) d).
Proof.
  intros H. destruct level; [left | right | congruence]; split; reflexivity.
Qed.

Lemma displayAutoDetectedAnalysis_settled (a : Worker.Analysis) (d : Doc) :
  settled (displayAutoDetectedAnalysis a d)
  /\ injected (displayAutoDetectedAnalysis a d) = injected d
  /\ statusBadges (displayAutoDetectedAnalysis a d) = statusBadges d.
Proof.
  unfold displayAutoDetectedAnalysis.
  destruct (Background.hasRiskyKeywords (Worker.policyData a));
    [|destruct (Background.hasPolicyContent (Worker.policyData a))];
    destruct (0 <? length (Background.foundPolicyLinks (Worker.policyData a)))%nat;
    (split; [first [left; split; reflexivity | right; split; reflexivity]
            | split; reflexivity]).
Qed.

(** [performRealTimeAnalysis] injects once; it ends with a verdict shown, or
    it throws. *)
Lemma performRealTimeAnalysis_outcome (tab : Tab) (d : Doc) :
  exists d',
    (performRealTimeAnalysis chrome tab d = (Resolved tt, d') /\ settled d'
     \/ performRealTimeAnalysis chrome tab d = (Rejected, d'))
    /\ injected d' = injected d ++ [id tab]
    /\ statusBadges d' = statusBadges d.
Proof.
  unfold performRealTimeAnalysis, tryCatch, andThen, inject, effect, await,
    hostnameOf, indicate, throw.
  destruct (scripting_executeScript chrome (id tab)) as [[|[a|] rest]|];
    try destruct (rt_hasRiskyKeywords a);
    try destruct (rt_hasPolicyContent a);
    destruct (url tab) as [u|];
    try destruct (URL_hostname chrome u);
    eexists;
    (split;
     [ first [ left; split;
               [reflexivity
               | first [left; split; reflexivity | right; split; reflexivity]]
             | right; reflexivity ]
     | split; reflexivity ]).
Qed.

Lemma analyzeCurrentPage_outcome (d : Doc) :
  let first :=
    match tabs_query chrome with
    | Resolved (tab :: _) => id tab
    | _ => 0%nat
    end in
  exists d' n,
    analyzeCurrentPage chrome d = (Resolved tt, d')
    /\ settled d'
    /\ statusBadges d' = statusBadges d
    /\ (n <= 2)%nat
    /\ injected d' = injected d ++ repeat first n.
Proof.
  cbv zeta.
  unfold analyzeCurrentPage, tryCatch, andThen, indicate, effect, await.
  destruct (tabs_query chrome) as [[|tab rest]|]; cbv beta iota.
  - eexists _, 0%nat. split; [reflexivity|].
    split; [left; split; reflexivity|]. split; [reflexivity|].
    split; [lia|]. cbn. rewrite app_nil_r. reflexivity.
  - set (d0 := onWorld (updateRiskIndicator analyzing _) d).
    assert (S0 : statusBadges d0 = statusBadges d) by reflexivity.
    assert (I0 : injected d0 = injected d) by reflexivity.
    clearbody d0.
    destruct (performRealTimeAnalysis_outcome tab d0) as (d1 & O1 & J1 & B1).
    destruct (performRealTimeAnalysis_outcome tab d1) as (d2 & O2 & J2 & B2).
    destruct (runtime_sendMessage chrome (id tab))
      as [[[analysisData | v] | ] | ]; cbv beta iota.
    + destruct (displayAutoDetectedAnalysis_settled analysisData d0)
        as (A1 & A2 & A3).
      eexists _, 0%nat. split; [reflexivity|]. split; [exact A1|].
      split; [congruence|]. split; [lia|].
      cbn. rewrite app_nil_r. congruence.
    + destruct O1 as [[E1 S1] | E1]; rewrite E1.
      * eexists _, 1%nat. split; [reflexivity|]. split; [exact S1|].
        split; [congruence|]. split; [lia|]. cbn. congruence.
      * destruct O2 as [[E2 S2] | E2]; rewrite E2.
        -- eexists _, 2%nat. split; [reflexivity|]. split; [exact S2|].
           split; [congruence|]. split; [lia|].
           cbn. rewrite J2, J1, I0, <- app_assoc. reflexivity.
        -- eexists _, 2%nat. split; [reflexivity|].
           split; [right; split; reflexivity|].
           split; [cbn; congruence|]. split; [lia|].
           cbn. rewrite J2, J1, I0, <- app_assoc. reflexivity.
    + destruct O1 as [[E1 S1] | E1]; rewrite E1.
      * eexists _, 1%nat. split; [reflexivity|]. split; [exact S1|].
        split; [congruence|]. split; [lia|]. cbn. congruence.
      * destruct O2 as [[E2 S2] | E2]; rewrite E2.
        -- eexists _, 2%nat. split; [reflexivity|]. split; [exact S2|].
           split; [congruence|]. split; [lia|].
           cbn. rewrite J2, J1, I0, <- app_assoc. reflexivity.
        -- eexists _, 2%nat. split; [reflexivity|].
           split; [right; split; reflexivity|].
           split; [cbn; congruence|]. split; [lia|].
           cbn. rewrite J2, J1, I0, <- app_assoc. reflexivity.
    + destruct O1 as [[E1 S1] | E1]; rewrite E1.
      * eexists _, 1%nat. split; [reflexivity|]. split; [exact S1|].
        split; [congruence|]. split; [lia|]. cbn. congruence.
      * eexists _, 1%nat. split; [reflexivity|].
        split; [right; split; reflexivity|].
        split; [cbn; congruence|]. split; [lia|].
        cbn. rewrite J1, I0. reflexivity.
  - eexists _, 0%nat. split; [reflexivity|].
    split; [right; split; reflexivity|]. split; [reflexivity|].
    split; [lia|]. cbn. rewrite app_nil_r. reflexivity.
Qed.

(** X25: The analysis of the current page never throws and never leaves the
    indicator on "Analyzing...": it ends on "Safe" or "Risky", whatever the
    browser answers; it injects its function at most twice, and only into
    the tab that the query gave first. *)
Theorem analyzeCurrentPage_always_settles (d : Doc) :
  let d' := snd (analyzeCurrentPage chrome d) in
  let first :=
    match tabs_query chrome with
    | Resolved (tab :: _) => id tab
    | _ => 0%nat
    end in
  fst (analyzeCurrentPage chrome d) = Resolved tt
  /\ settled d'
  /\ statusBadges d' = statusBadges d
  /\ exists n, (n <= 2)%nat /\ injected d' = injected d ++ repeat first n.
Proof.
  cbv zeta. destruct (analyzeCurrentPage_outcome d) as (d' & n & E & H).
  cbv zeta in H. rewrite E. cbn [fst snd].
  destruct H as (H1 & H2 & H3 & H4).
  split; [reflexivity|]. split; [exact H1|]. split; [exact H2|].
  exists n. split; assumption.
Qed.

(** X26: [init] never throws: it puts one status badge into the popup and ends
    with a verdict shown. *)
Theorem init_always_settles (configLoaded : bool)
  (window_ai : option WindowAI) (d : Doc) :
  let d' := snd (init configLoaded window_ai chrome d) in
  fst (init configLoaded window_ai chrome d) = Resolved tt
  /\ settled d'
  /\ statusBadges d'
     = statusBadges d
       ++ [statusText (if configLoaded then checkAIAvailability window_ai
                       else noAvailability)].
Proof.
  cbv zeta. unfold init, andThen, effect.
  set (d0 := displayAIStatus _ d).
  destruct (analyzeCurrentPage_outcome d0) as (d' & n & E & H1 & H2 & _).
  rewrite E. cbn [fst snd]. split; [reflexivity|]. split; [exact H1|].
  rewrite H2. reflexivity.
Qed.

End CurrentPage.

Section StoredAnalysisShown.

Import Popup PopupPage.

Variable chrome : Chrome.

(** What [analyzeCurrentPage] does when the worker holds an analysis for
    the first tab. *)
Lemma analyzeCurrentPage_stored (d : Doc) (tab : Tab) (rest : list Tab)
  (a : Worker.Analysis) :
  tabs_query chrome = Resolved (tab :: rest) ->
  runtime_sendMessage chrome (id tab)
  = Resolved (Some (Worker.StoredAnalysis a)) ->
  analyzeCurrentPage chrome d
  = (Resolved tt,
     displayAutoDetectedAnalysis a
       (onWorld (updateRiskIndicator analyzing
                   (lit "Analyzing current website...")) d)).
Proof.
  intros H1 H2.
  unfold analyzeCurrentPage, tryCatch, andThen, indicate, effect, await.
  rewrite H1. cbv beta iota. rewrite H2. reflexivity.
Qed.

(** X27: When the worker holds an analysis for the current tab, the popup shows
    it without injecting anything into the page: "Risky", with the host and
    the risk terms found, when the report has risky keywords, and "Safe"
    otherwise; the links of the report are listed when there are any. *)
Theorem stored_analysis_is_shown (d : Doc) (tab : Tab) (rest : list Tab)
  (a : Worker.Analysis) :
  tabs_query chrome = Resolved (tab :: rest) ->
  runtime_sendMessage chrome (id tab)
  = Resolved (Some (Worker.StoredAnalysis a)) ->
  let d' := snd (analyzeCurrentPage chrome d) in
  let pd := Worker.policyData a in
  injected d' = injected d
  /\ (Background.hasRiskyKeywords pd = true ->
      riskLevel_textContent (world d') = lit "Risky"
      /\ riskDescription_textContent (world d')
         = lit "Potential privacy risks detected on " ++ Worker.hostname a
           ++ lit ". Found: "
           ++ join (lit ", ") (Background.foundRiskyTerms pd))
  /\ (Background.hasRiskyKeywords pd = false ->
      riskLevel_textContent (world d') = lit "Safe")
  /\ policyLinks d'
     = policyLinks d
       ++ match Background.foundPolicyLinks pd with
          | [] => []
          | links => [links]
          end.
Proof.
  intros H1 H2. cbv zeta. rewrite (analyzeCurrentPage_stored d H1 H2).
  cbn [snd]. unfold displayAutoDetectedAnalysis.
  destruct (Background.hasRiskyKeywords (Worker.policyData a));
    [|destruct (Background.hasPolicyContent (Worker.policyData a))];
    destruct (Background.foundPolicyLinks (Worker.policyData a)) as [|l ls];
    cbn [length Nat.ltb Nat.leb];
    (split; [reflexivity|]);
    (split; [intros E; first [discriminate E | split; reflexivity]|]);
    (split; [intros E; first [discriminate E | reflexivity]|]);
    cbn; rewrite ?app_nil_r; reflexivity.
Qed.

End StoredAnalysisShown.

Section WorkerToPopup.

Import stdpp.base stdpp.gmap.
Import PopupPage.

(** X28: From the worker to the popup: after the worker has analysed a tab
    whose document has a body with a risk phrase in its text and HTML
    anchors only (so that the injected function returns its report) and
    whose URL gives a host, a popup opened on that tab (its message being
    answered by the worker) shows "Risky" and names the host and the first
    five risk phrases found in the page, and injects nothing. *)
Theorem popup_shows_what_the_worker_recorded (chrome : Chrome) (d : Doc)
  (tab : Tab) (rest : list Tab) (tab_url host text : jsstring)
  (v : Worker.Visit) (doc : Injection.Document) (b : Worker.Browser) :
  tabs_query chrome = Popup.Resolved (tab :: rest) ->
  Injection.body doc = Some text ->
  Injection.allHtml (Injection.anchors doc) = true ->
  carries v (Injection.injectedDetectPolicyContent doc) ->
  Worker.URL_hostname v = Popup.Resolved host ->
  runtime_sendMessage chrome (id tab)
  = Popup.Resolved
      (replyOf
         (fst (Worker.onMessage (Worker.getPageAnalysis (id tab))
                 (Worker.analyzePageForPolicies (id tab) tab_url v b)))) ->
  (exists k, In k Background.riskyKeywords
             /\ Contains (toLowerCase text) (toLowerCase k)) ->
  let d' := snd (analyzeCurrentPage chrome d) in
  Popup.riskLevel_textContent (world d') = lit "Risky"
  /\ Popup.riskDescription_textContent (world d')
     = lit "Potential privacy risks detected on " ++ host ++ lit ". Found: "
       ++ join (lit ", ")
            (firstn 5 (matched Background.riskyKeywords text))
  /\ injected d' = injected d.
Proof.
  intros H1 Hb Ha Hc Hu H2 H3. cbv zeta.
  unfold Injection.injectedDetectPolicyContent in Hc.
  rewrite Hb, Ha in Hc. cbn [carries] in Hc.
  destruct (detectPolicyContent_flags (Injection.pageOf doc text))
    as [_ F2].
  cbv zeta in F2. cbn [Injection.pageOf Background.innerText] in F2.
  apply F2 in H3.
  destruct (detectPolicyContent_fields (Injection.pageOf doc text))
    as (_ & T & _).
  cbv zeta in T. cbn [Injection.pageOf Background.innerText] in T.
  fold (Injection.pageOf doc text) in H3, T.
  set (pd := Background.detectPolicyContent (Injection.pageOf doc text)) in *.
  assert (K : Background.hasPolicyContent pd || Background.hasRiskyKeywords pd
              = true) by (rewrite H3; apply orb_true_r).
  rewrite (@analyzePageForPolicies_kept (id tab) tab_url host
             v pd [] b Hc K Hu) in H2.
  unfold Worker.onMessage in H2. cbn [fst] in H2.
  rewrite showPolicyAlert_storage in H2.
  cbn [Worker.storage_set Worker.storage] in H2.
  rewrite lookup_insert_eq in H2. cbn [replyOf] in H2.
  rewrite (analyzeCurrentPage_stored chrome d H1 H2). cbn [snd].
  unfold displayAutoDetectedAnalysis.
  cbn [Worker.policyData Worker.hostname]. rewrite H3, T.
  destruct (0 <? length (Background.foundPolicyLinks pd))%nat;
    (split; [reflexivity | split; reflexivity]).
Qed.

End WorkerToPopup.

(** Tab 7 shows [busyDocument]: the worker records it, the popup shows it. *)
Lemma popup_shows_what_the_worker_recorded_witness :
  let chrome :=
    {| PopupPage.tabs_query :=
         Popup.Resolved
           [ {| PopupPage.id := 7;
                PopupPage.url := Some (lit "https://example.com/") |} ];
       PopupPage.runtime_sendMessage := fun tabId =>
         Popup.Resolved
           (replyOf
              (fst (Worker.onMessage (Worker.getPageAnalysis tabId)
                      (Worker.analyzePageForPolicies 7
                         (lit "https://example.com/")
                         (visitOf busyPage (lit "example.com") 0)
                         freshBrowser))));
       PopupPage.scripting_executeScript := fun _ => Popup.Rejected;
       PopupPage.URL_hostname := fun _ => Popup.Rejected |} in
  Popup.riskLevel_textContent
    (PopupPage.world (snd (PopupPage.analyzeCurrentPage chrome initialDoc)))
  = lit "Risky"
  /\ Popup.riskDescription_textContent
       (PopupPage.world (snd (PopupPage.analyzeCurrentPage chrome initialDoc)))
     = lit "Potential privacy risks detected on example.com. Found: sell your data, third parties, advertising partners, indefinitely, without notice".
Proof.
  cbv zeta.
  match goal with
  | |- context [PopupPage.analyzeCurrentPage ?c _] => set (chrome := c)
  end.
  destruct (@popup_shows_what_the_worker_recorded chrome initialDoc
              {| PopupPage.id := 7;
                 PopupPage.url := Some (lit "https://example.com/") |}
              [] (lit "https://example.com/") (lit "example.com")
              (Background.innerText busyPage)
              (visitOf busyPage (lit "example.com") 0)
              busyDocument freshBrowser)
    as (H1 & H2 & _).
  - reflexivity.
  - reflexivity.
  - reflexivity.
  - reflexivity.
  - reflexivity.
  - reflexivity.
  - exists (lit "sell your data"). split.
    + left. reflexivity.
    + apply includes_Contains. vm_compute. reflexivity.
  - split; [exact H1|]. rewrite H2. vm_compute. reflexivity.
Defined.

(** The worker holds an analysis of [busyPage] for tab 7. *)
Lemma stored_analysis_is_shown_witness :
  let a := {| Worker.url := lit "https://example.com/";
              Worker.hostname := lit "example.com";
              Worker.policyData := Background.detectPolicyContent busyPage;
              Worker.timestamp := 0 |} in
  let chrome :=
    {| PopupPage.tabs_query :=
         Popup.Resolved
           [ {| PopupPage.id := 7;
                PopupPage.url := Some (lit "https://example.com/") |} ];
       PopupPage.runtime_sendMessage := fun _ =>
         Popup.Resolved (Some (Worker.StoredAnalysis a));
       PopupPage.scripting_executeScript := fun _ => Popup.Rejected;
       PopupPage.URL_hostname := fun _ => Popup.Rejected |} in
  PopupPage.injected (snd (PopupPage.analyzeCurrentPage chrome initialDoc)) = []
  /\ Popup.riskLevel_textContent
       (PopupPage.world (snd (PopupPage.analyzeCurrentPage chrome initialDoc)))
     = lit "Risky".
Proof.
  cbv zeta.
  match goal with
  | |- context [PopupPage.analyzeCurrentPage ?c _] => set (chrome := c)
  end.
  destruct (@stored_analysis_is_shown chrome initialDoc
              {| PopupPage.id := 7;
                 PopupPage.url := Some (lit "https://example.com/") |}
              []
              {| Worker.url := lit "https://example.com/";
                 Worker.hostname := lit "example.com";
                 Worker.policyData := Background.detectPolicyContent busyPage;
                 Worker.timestamp := 0 |} eq_refl eq_refl)
    as (H1 & H2 & _).
  split; [exact H1|]. apply H2. vm_compute. reflexivity.
Defined.

(* ------------------------------------------------------------------ *)
(** ** Which page loads the worker analyses, and which words are counted *)

Section Gate.

Import Worker.

(** X29: The worker analyses a tab only when its load is complete and its URL is
    there, not empty, and starts with neither "chrome://" nor
    "chrome-extension://"; in every other case the update changes nothing. *)
Theorem only_complete_web_pages_are_analysed (tabId : nat)
  (status : jsstring) (url : option jsstring) (v : Visit) (b : Browser) :
  (forall u,
      status = lit "complete" -> url = Some u -> u <> [] ->
      ~ Prefix (lit "chrome://") u ->
      ~ Prefix (lit "chrome-extension://") u ->
      onUpdated tabId status url v b = analyzePageForPolicies tabId u v b)
  /\ (status <> lit "complete"
      \/ url = None \/ url = Some []
      \/ (exists u, url = Some u
                    /\ (Prefix (lit "chrome://") u
                        \/ Prefix (lit "chrome-extension://") u)) ->
      onUpdated tabId status url v b = b).
Proof.
  split.
  - intros u Hs Hu Hne H1 H2. subst. unfold onUpdated.
    rewrite str_eqb_refl. destruct u as [|c u]; [congruence|].
    cbn [truthy negb orb].
    destruct (startsWith (c :: u) (lit "chrome://")) eqn:E1.
    { exfalso. apply H1, startsWith_Prefix. exact E1. }
    destruct (startsWith (c :: u) (lit "chrome-extension://")) eqn:E2.
    { exfalso. apply H2, startsWith_Prefix. exact E2. }
    reflexivity.
  - intros [H | [H | [H | [u [Hu H]]]]]; unfold onUpdated.
    + destruct url as [u|]; [|reflexivity].
      destruct (str_eqb status (lit "complete")) eqn:E; [|reflexivity].
      apply str_eqb_eq in E. congruence.
    + rewrite H. reflexivity.
    + rewrite H. cbn [truthy negb]. rewrite orb_true_r. reflexivity.
    + rewrite Hu.
      destruct (negb (str_eqb status (lit "complete")) || negb (truthy u));
        [reflexivity|].
      destruct H as [H | H]; apply startsWith_Prefix in H; rewrite H;
        [reflexivity | rewrite orb_true_r; reflexivity].
Qed.

End Gate.

(** An extensions page is skipped; a complete web page is analysed. *)
Lemma only_complete_web_pages_are_analysed_witness :
  Worker.onUpdated 7 (lit "complete") (Some (lit "chrome://extensions"))
    (visitOf busyPage (lit "extensions") 0) freshBrowser
  = freshBrowser
  /\ Worker.onUpdated 7 (lit "complete") (Some (lit "https://example.com/"))
       (visitOf busyPage (lit "example.com") 0) freshBrowser
     = Worker.analyzePageForPolicies 7 (lit "https://example.com/")
         (visitOf busyPage (lit "example.com") 0) freshBrowser.
Proof.
  split.
  - apply (proj2 (only_complete_web_pages_are_analysed 7 (lit "complete")
                    (Some (lit "chrome://extensions"))
                    (visitOf busyPage (lit "extensions") 0) freshBrowser)).
    right. right. right. exists (lit "chrome://extensions").
    split; [reflexivity|]. left. exists (lit "extensions"). reflexivity.
  - apply (proj1 (only_complete_web_pages_are_analysed 7 (lit "complete")
                    (Some (lit "https://example.com/"))
                    (visitOf busyPage (lit "example.com") 0) freshBrowser)).
    + reflexivity.
    + reflexivity.
    + discriminate.
    + intros H. apply startsWith_Prefix in H. vm_compute in H. discriminate.
    + intros H. apply startsWith_Prefix in H. vm_compute in H. discriminate.
Defined.

Section WordCount.

Import Popup.

Lemma endsSolid_cons (c : N) (s : jsstring) :
  endsSolid (c :: s) ->
  (s = [] /\ isWhiteSpace c = false) \/ (s <> [] /\ endsSolid s).
Proof.
  unfold endsSolid. cbn [rev].
  destruct (rev s) as [|d r] eqn:E.
  - intros H. left. split; [|exact H].
    apply (f_equal (@rev N)) in E. rewrite rev_involutive in E. exact E.
  - intros H. right. split; [|exact H].
    intros ->. discriminate E.
Qed.

Lemma splitWsFrom_no_space (s cur : jsstring) (inrun : bool) :
  forallb (fun c => negb (isWhiteSpace c)) cur = true ->
  Forall (fun piece => forallb (fun c => negb (isWhiteSpace c)) piece = true)
         (splitWsFrom cur inrun s).
Proof.
  revert cur inrun. induction s as [|c s IH]; intros cur inrun H; cbn [splitWsFrom].
  - constructor; [|constructor]. rewrite forallb_rev. exact H.
  - destruct (isWhiteSpace c) eqn:W.
    + destruct inrun; [apply IH; exact H|].
      constructor; [rewrite forallb_rev; exact H | apply IH; reflexivity].
    + apply IH. cbn [forallb]. rewrite W. exact H.
Qed.

Lemma splitWsFrom_nonempty (s cur : jsstring) (inrun : bool) :
  endsSolid s ->
  (inrun = false \/ s = [] -> cur <> []) ->
  Forall (fun piece => piece <> []) (splitWsFrom cur inrun s).
Proof.
  revert cur inrun. induction s as [|c s IH]; intros cur inrun He Hc;
    cbn [splitWsFrom].
  - constructor; [|constructor].
    assert (C : cur <> []) by (apply Hc; right; reflexivity).
    intros E. apply C. apply (f_equal (@rev N)) in E.
    rewrite rev_involutive in E. exact E.
  - destruct (@endsSolid_cons c s He) as [[-> W] | [Hne He']].
    + rewrite W. apply IH; [exact I|]. intros _. discriminate.
    + destruct (isWhiteSpace c) eqn:W.
      * destruct inrun.
        -- apply IH; [exact He'|]. intros [E | E]; [discriminate | contradiction].
        -- constructor.
           ++ assert (C : cur <> []) by (apply Hc; left; reflexivity).
              intros E. apply C. apply (f_equal (@rev N)) in E.
              rewrite rev_involutive in E. exact E.
           ++ apply IH; [exact He'|].
              intros [E | E]; [discriminate | contradiction].
      * apply IH; [exact He'|]. intros _. discriminate.
Qed.

Lemma trimStart_head (s : jsstring) : trimStart s = [] \/ headSolid (trimStart s).
Proof.
  induction s as [|c s IH]; [left; reflexivity|].
  cbn [trimStart]. destruct (isWhiteSpace c) eqn:W; [exact IH|].
  right. exact W.
Qed.

(** A trimmed text is empty or starts and ends with no white space. *)
Lemma trim_solid (s : jsstring) : trim s = [] \/ solid (trim s).
Proof.
  unfold trim.
  destruct (trimEnd (trimStart s)) as [|c t] eqn:E; [left; reflexivity|].
  right. split.
  - destruct (trimEnd_split (trimStart s)) as (ws & H & _).
    rewrite E in H. destruct (trimStart_head s) as [H0 | H0].
    + rewrite H0 in H. discriminate H.
    + rewrite H in H0. exact H0.
  - rewrite <- E. unfold trimEnd. rewrite rev_involutive.
    destruct (trimStart_head (rev (trimStart s))) as [H0 | H0]; [|exact H0].
    unfold trimEnd in E. rewrite H0 in E. discriminate E.
Qed.

(** X30: The pieces that the summaries count never contain white space, and
    there is always at least one (the empty text counts as one word); for
    the text the Analyze button passes on, trimmed and not empty, every
    piece counted is a word. *)
Theorem counted_pieces_are_words :
  (forall s,
      Forall (fun piece =>
                forallb (fun c => negb (isWhiteSpace c)) piece = true)
             (splitWs s)
      /\ (1 <= length (splitWs s))%nat)
  /\ splitWs [] = [[]]
  /\ (forall value, trim value <> [] -> Forall isWord (splitWs (trim value))).
Proof.
  split; [|split; [reflexivity|]].
  - intros s. split.
    + apply splitWsFrom_no_space. reflexivity.
    + unfold splitWs. generalize (@nil N) at 1. generalize false.
      induction s as [|c s IH]; intros b cur; cbn [splitWsFrom].
      * cbn. lia.
      * destruct (isWhiteSpace c); [destruct b|]; cbn [length];
          try apply IH. lia.
  - intros value Hne.
    destruct (trim_solid value) as [E | [Hh Hl]]; [contradiction|].
    set (text := trim value) in *.
    assert (A : Forall (fun piece => piece <> []) (splitWs text)).
    { destruct text as [|c t]; [contradiction|].
      cbn in Hh. unfold splitWs. cbn [splitWsFrom]. rewrite Hh.
      apply splitWsFrom_nonempty; [|intros _; discriminate].
      unfold solid, headSolid, endsSolid in *. cbn [rev] in Hl.
      destruct (rev t) as [|d r]; [exact I|]. exact Hl. }
    assert (B : Forall (fun piece =>
                          forallb (fun c => negb (isWhiteSpace c)) piece = true)
                       (splitWs text))
      by (apply splitWsFrom_no_space; reflexivity).
    rewrite Forall_forall in *. intros p Hp. split; [apply A | apply B]; exact Hp.
Qed.

End WordCount.

(** The pieces of a padded sentence, trimmed: three words. *)
Lemma counted_pieces_are_words_witness :
  Forall isWord (splitWs (trim (lit "  sell   your data ")))
  /\ length (splitWs (trim (lit "  sell   your data "))) = 3%nat.
Proof.
  split; [|reflexivity].
  apply (proj2 (proj2 counted_pieces_are_words)).
  vm_compute. discriminate.
Defined.

(** In [busyDocument] the worker's function returns a report; the popup's
    scan returns too and sets the risk flag, and so does the report. *)
Lemma popup_scan_flags_imply_worker_flags_witness :
  exists rt,
    Injection.injectedRealTimeScan busyDocument = Popup.Resolved rt
    /\ PopupPage.rt_hasRiskyKeywords rt = true
    /\ Background.hasRiskyKeywords
         (Background.detectPolicyContent
            (Injection.pageOf busyDocument (Background.innerText busyPage)))
       = true.
Proof.
  destruct (proj1 popup_scan_flags_imply_worker_flags busyDocument
              (Background.detectPolicyContent
                 (Injection.pageOf busyDocument
                    (Background.innerText busyPage)))
              eq_refl)
    as [rt [H1 [_ H3]]].
  exists rt. split; [exact H1|].
  assert (H : PopupPage.rt_hasRiskyKeywords rt = true).
  { injection H1 as H1. rewrite <- H1. vm_compute. reflexivity. }
  split; [exact H | exact (H3 H)].
Defined.
